(** * Model-Elevator: the control core of main.c, embedded in Rocq

    The program is an MSP430 firmware whose watchdog-timer interrupt
    polls three priority encoders (limit switches, in-elevator buttons,
    on-tower buttons) and then runs a seven-state machine that drives
    the motor.  The embedding keeps the program's own variables and
    port registers: every C function that the state machine calls is a
    function on [Machine]; one interrupt is [WDT_interval_handler]. *)

From Stdlib Require Import ZArith List Bool Lia.
Import ListNotations.
Local Open Scope Z_scope.

(** ** Data *)

(** The [state] variable.  The C code stores one of seven character
    literals; [state_char] gives the literal of each constructor. *)
Inductive State : Type :=
| Initializing              (* 'i' *)
| Idle                      (* 'x' *)
| MovingToCallUp            (* '^' *)
| MovingToCallDown          (* 'v' *)
| AwaitingSelection         (* 'w' *)
| MovingToDestinationUp     (* 'u' *)
| MovingToDestinationDown.  (* 'd' *)

Definition state_char (st : State) : Z :=
  match st with
  | Initializing => 105
  | Idle => 120
  | MovingToCallUp => 94
  | MovingToCallDown => 118
  | AwaitingSelection => 119
  | MovingToDestinationUp => 117
  | MovingToDestinationDown => 100
  end.

Definition State_eqb (a b : State) : bool := state_char a =? state_char b.

(** The two values that [dest_direction] is ever assigned: 'u' and 'd'. *)
Definition CH_u : Z := 117.
Definition CH_d : Z := 100.

(** [unsigned char] arithmetic wraps modulo 256. *)
Definition u8 (z : Z) : Z := z mod 256.

(** Port bit masks. *)
Definition SEVENSEG_A0 : Z := 1.
Definition SEVENSEG_A1 : Z := 2.
Definition PWM         : Z := 4.
Definition SEVENSEG_A2 : Z := 8.
Definition TOWER_EN    : Z := 16.
Definition LIMIT_EN    : Z := 1.
Definition ELEV_EN     : Z := 8.
Definition UPCTL       : Z := 64.
Definition DNCTL       : Z := 128.

Definition UP_DUTY_CYCLE : Z := 400.
Definition DN_DUTY_CYCLE : Z := 300.

Definition TOWER_ADDR_MASK : Z := 224.
Definition ELEV_ADDR_MASK  : Z := 48.
Definition LIMIT_ADDR_MASK : Z := 6.

(** On-tower call button addresses. *)
Definition F1_UP : Z := 7.
Definition F2_DN : Z := 6.
Definition F2_UP : Z := 5.
Definition F3_DN : Z := 4.
Definition F3_UP : Z := 3.
Definition F4_DN : Z := 2.

(** The program's global variables together with the output registers
    it writes.  Field names are those of the C source. *)
Record Machine : Type := mkMachine {
  state          : State;
  current_floor  : Z;
  called_floor   : Z;
  destination    : Z;
  dest_direction : Z;
  P1OUT          : Z;
  P2OUT          : Z;
  TA0CCR1        : Z
}.

(** The input registers as one interrupt reads them.  The handler is
    modelled on one snapshot of the pins per interrupt. *)
Record Ports : Type := mkPorts {
  P1IN : Z;
  P2IN : Z
}.

Definition set_state (v : State) (m : Machine) : Machine :=
  mkMachine v (current_floor m) (called_floor m) (destination m)
            (dest_direction m) (P1OUT m) (P2OUT m) (TA0CCR1 m).
Definition set_current_floor (v : Z) (m : Machine) : Machine :=
  mkMachine (state m) v (called_floor m) (destination m)
            (dest_direction m) (P1OUT m) (P2OUT m) (TA0CCR1 m).
Definition set_called_floor (v : Z) (m : Machine) : Machine :=
  mkMachine (state m) (current_floor m) v (destination m)
            (dest_direction m) (P1OUT m) (P2OUT m) (TA0CCR1 m).
Definition set_destination (v : Z) (m : Machine) : Machine :=
  mkMachine (state m) (current_floor m) (called_floor m) v
            (dest_direction m) (P1OUT m) (P2OUT m) (TA0CCR1 m).
Definition set_dest_direction (v : Z) (m : Machine) : Machine :=
  mkMachine (state m) (current_floor m) (called_floor m) (destination m)
            v (P1OUT m) (P2OUT m) (TA0CCR1 m).
Definition set_P1OUT (v : Z) (m : Machine) : Machine :=
  mkMachine (state m) (current_floor m) (called_floor m) (destination m)
            (dest_direction m) v (P2OUT m) (TA0CCR1 m).
Definition set_P2OUT (v : Z) (m : Machine) : Machine :=
  mkMachine (state m) (current_floor m) (called_floor m) (destination m)
            (dest_direction m) (P1OUT m) v (TA0CCR1 m).
Definition set_TA0CCR1 (v : Z) (m : Machine) : Machine :=
  mkMachine (state m) (current_floor m) (called_floor m) (destination m)
            (dest_direction m) (P1OUT m) (P2OUT m) v.

(** [reg |= mask] and [reg &= ~mask] on an 8-bit register. *)
Definition bis (reg mask : Z) : Z := u8 (Z.lor reg mask).
Definition bic (reg mask : Z) : Z := u8 (Z.land reg (Z.lnot mask)).

(** Statements in sequence: [f ;; g] runs [f], then [g]. *)
Definition seq (f g : Machine -> Machine) : Machine -> Machine :=
  fun m => g (f m).
Notation "f ;; g" := (seq f g) (at level 61, right associativity).

Definition skip : Machine -> Machine := fun m => m.

(** ** Motor control functions *)

Definition stop_motor : Machine -> Machine :=
  (fun m => set_P2OUT (bis (P2OUT m) UPCTL) m) ;;
  (fun m => set_P2OUT (bis (P2OUT m) DNCTL) m).

Definition go_up : Machine -> Machine :=
  (fun m => set_P2OUT (bis (P2OUT m) UPCTL) m) ;;
  (fun m => set_P2OUT (bic (P2OUT m) DNCTL) m) ;;
  set_TA0CCR1 UP_DUTY_CYCLE.

Definition go_down : Machine -> Machine :=
  (fun m => set_P2OUT (bic (P2OUT m) UPCTL) m) ;;
  (fun m => set_P2OUT (bis (P2OUT m) DNCTL) m) ;;
  set_TA0CCR1 DN_DUTY_CYCLE.

(** The motor command that the two direction lines of port 2 encode:
    both high is stop mode, UPCTL alone is up, DNCTL alone is down.
    Both low is written by none of the three functions above. *)
Inductive Intent : Type := Up | Down | Hold.

Definition motor_intent (m : Machine) : option Intent :=
  match Z.testbit (P2OUT m) 6, Z.testbit (P2OUT m) 7 with
  | true, true => Some Hold
  | true, false => Some Up
  | false, true => Some Down
  | false, false => None
  end.

(** ** Seven-segment display *)

Definition update_display (floor : Z) : Machine -> Machine :=
  if floor =? 1 then
    (fun m => set_P1OUT (bis (P1OUT m) SEVENSEG_A0) m) ;;
    (fun m => set_P1OUT (bic (P1OUT m) SEVENSEG_A1) m) ;;
    (fun m => set_P1OUT (bic (P1OUT m) SEVENSEG_A2) m)
  else if floor =? 2 then
    (fun m => set_P1OUT (bic (P1OUT m) SEVENSEG_A0) m) ;;
    (fun m => set_P1OUT (bis (P1OUT m) SEVENSEG_A1) m) ;;
    (fun m => set_P1OUT (bic (P1OUT m) SEVENSEG_A2) m)
  else if floor =? 3 then
    (fun m => set_P1OUT (bis (P1OUT m) SEVENSEG_A0) m) ;;
    (fun m => set_P1OUT (bis (P1OUT m) SEVENSEG_A1) m) ;;
    (fun m => set_P1OUT (bic (P1OUT m) SEVENSEG_A2) m)
  else if floor =? 4 then
    (fun m => set_P1OUT (bic (P1OUT m) SEVENSEG_A0) m) ;;
    (fun m => set_P1OUT (bic (P1OUT m) SEVENSEG_A1) m) ;;
    (fun m => set_P1OUT (bis (P1OUT m) SEVENSEG_A2) m)
  else skip.

(** ** Address decoding *)

Definition get_tower_addr (io : Ports) : Z :=
  u8 (Z.shiftr (Z.land (P1IN io) TOWER_ADDR_MASK) 5).

Definition get_elev_addr (io : Ports) : Z :=
  u8 (Z.shiftr (Z.land (P2IN io) ELEV_ADDR_MASK) 4).

Definition get_limit_addr (io : Ports) : Z :=
  u8 (Z.shiftr (Z.land (P2IN io) LIMIT_ADDR_MASK) 1).

(** ** Control handlers *)

(** The body shared by the four middle cases of [handle_tower_button]
    (F2_DN, F2_UP, F3_DN, F3_UP), which differ only in the floor and
    the direction character they store. *)
Definition tower_case_mid (floor dir : Z) : Machine -> Machine :=
  fun m =>
    if State_eqb (state m) Idle then
      (set_called_floor floor ;;
       set_dest_direction dir ;;
       (fun m =>
          if negb (current_floor m =? floor) then
            if current_floor m >? floor then (go_down ;; set_state MovingToCallDown) m
            else (go_up ;; set_state MovingToCallUp) m
          else set_state AwaitingSelection m)) m
    else m.

Definition handle_tower_button (addr : Z) : Machine -> Machine :=
  if addr =? F1_UP then
    fun m =>
      if State_eqb (state m) Idle then
        (set_called_floor 1 ;;
         set_dest_direction CH_u ;;
         (fun m =>
            if negb (current_floor m =? 1) then (go_down ;; set_state MovingToCallDown) m
            else set_state AwaitingSelection m)) m
      else m
  else if addr =? F2_DN then tower_case_mid 2 CH_d
  else if addr =? F2_UP then tower_case_mid 2 CH_u
  else if addr =? F3_DN then tower_case_mid 3 CH_d
  else if addr =? F3_UP then tower_case_mid 3 CH_u
  else if addr =? F4_DN then
    fun m =>
      if State_eqb (state m) Idle then
        (set_called_floor 4 ;;
         set_dest_direction CH_d ;;
         (fun m =>
            if negb (current_floor m =? 4) then (go_up ;; set_state MovingToCallUp) m
            else set_state AwaitingSelection m)) m
      else m
  else skip.

Definition handle_elev_button (addr : Z) : Machine -> Machine :=
  set_destination (u8 (addr + 1)) ;;
  (fun m =>
     if State_eqb (state m) AwaitingSelection then
       if destination m =? current_floor m then set_state AwaitingSelection m
       else if (dest_direction m =? CH_u) && (destination m >? current_floor m)
            then set_state MovingToDestinationUp m
       else if (dest_direction m =? CH_d) && (destination m <? current_floor m)
            then set_state MovingToDestinationDown m
       else m
     else m).

Definition handle_limit_switch (addr : Z) : Machine -> Machine :=
  set_current_floor (u8 (addr + 1)) ;;
  (fun m =>
     if (current_floor m =? 1) || (current_floor m =? 4) then stop_motor m
     else m) ;;
  (fun m => update_display (current_floor m) m).

(** ** The watchdog-timer interrupt *)

(** The three polling [if]s at the head of the handler, in source order. *)
Definition poll_sensors (io : Ports) : Machine -> Machine :=
  (if negb (Z.land (P2IN io) LIMIT_EN =? 0)
   then handle_limit_switch (get_limit_addr io) else skip) ;;
  (if negb (Z.land (P2IN io) ELEV_EN =? 0)
   then handle_elev_button (get_elev_addr io) else skip) ;;
  (if negb (Z.land (P1IN io) TOWER_EN =? 0)
   then handle_tower_button (get_tower_addr io) else skip).

(** The [switch (state)] that follows them. *)
Definition handle_system_state : Machine -> Machine :=
  fun m =>
    match state m with
    | Initializing =>
        if current_floor m =? 1 then (stop_motor ;; set_state Idle) m
        else go_down m
    | Idle => stop_motor m
    | MovingToCallUp =>
        if called_floor m =? current_floor m
        then (stop_motor ;; set_state AwaitingSelection) m
        else go_up m
    | MovingToCallDown =>
        if called_floor m =? current_floor m
        then (stop_motor ;; set_state AwaitingSelection) m
        else go_down m
    | AwaitingSelection => stop_motor m
    | MovingToDestinationUp =>
        if destination m =? current_floor m
        then (stop_motor ;; set_state Idle) m
        else go_up m
    | MovingToDestinationDown =>
        if destination m =? current_floor m
        then (stop_motor ;; set_state Idle) m
        else go_down m
    end.

Definition WDT_interval_handler (io : Ports) : Machine -> Machine :=
  poll_sensors io ;; handle_system_state.

(** Consecutive interrupts, one per element of the input list. *)
Fixpoint run (ios : list Ports) (m : Machine) : Machine :=
  match ios with
  | [] => m
  | io :: rest => run rest (WDT_interval_handler io m)
  end.

(** The machine after each of the interrupts, in order. *)
Fixpoint run_trace (ios : list Ports) (m : Machine) : list Machine :=
  match ios with
  | [] => []
  | io :: rest =>
      let m' := WDT_interval_handler io m in m' :: run_trace rest m'
  end.

(** ** Decoded views of the inputs *)

(** The floor that the limit-switch encoder reports in this interrupt,
    if its enable line is set: [handle_limit_switch] stores address + 1. *)
Definition limit_event (io : Ports) : option Z :=
  if negb (Z.land (P2IN io) LIMIT_EN =? 0)
  then Some (u8 (get_limit_addr io + 1)) else None.

(** The floor selected in the cabin in this interrupt, if any. *)
Definition elev_event (io : Ports) : option Z :=
  if negb (Z.land (P2IN io) ELEV_EN =? 0)
  then Some (u8 (get_elev_addr io + 1)) else None.

(** The address of the on-tower button pressed in this interrupt, if any. *)
Definition tower_event (io : Ports) : option Z :=
  if negb (Z.land (P1IN io) TOWER_EN =? 0)
  then Some (get_tower_addr io) else None.

(** The floor and direction that each on-tower button stands for,
    read off the address table of the source (F1_UP ... F4_DN). *)
Definition tower_button (addr : Z) : option (Z * Z) :=
  if addr =? F1_UP then Some (1, CH_u)
  else if addr =? F2_DN then Some (2, CH_d)
  else if addr =? F2_UP then Some (2, CH_u)
  else if addr =? F3_DN then Some (3, CH_d)
  else if addr =? F3_UP then Some (3, CH_u)
  else if addr =? F4_DN then Some (4, CH_d)
  else None.

(** The motor command that the transition switch leaves behind, as a
    function of the state in which the interrupt ends. *)
Definition intent_of_state (st : State) : Intent :=
  match st with
  | Initializing => Down
  | Idle => Hold
  | MovingToCallUp => Up
  | MovingToCallDown => Down
  | AwaitingSelection => Hold
  | MovingToDestinationUp => Up
  | MovingToDestinationDown => Down
  end.

Definition moving_to_call (st : State) : bool :=
  match st with
  | MovingToCallUp | MovingToCallDown => true
  | _ => false
  end.

Definition moving_to_destination (st : State) : bool :=
  match st with
  | MovingToDestinationUp | MovingToDestinationDown => true
  | _ => false
  end.

(** The data model's reading of the C variables as optional values: a
    floor variable holds a pending floor when its value is one of the
    serviceable floors 1..4, and nothing otherwise. *)
Definition serviceable (f : Z) : bool := (1 <=? f) && (f <=? 4).

Definition PendingDestination (m : Machine) : option Z :=
  if serviceable (destination m) then Some (destination m) else None.

Definition PendingCall (m : Machine) : option (Z * Z) :=
  if serviceable (called_floor m)
  then Some (called_floor m, dest_direction m) else None.

(** The floors strictly after [from] on the way to [target], one floor
    at a time, ending with [target]; [n] is the number of floors. *)
Fixpoint walk (n : nat) (from target : Z) : list Z :=
  match n with
  | O => []
  | S k =>
      let next := if from <? target then from + 1 else from - 1 in
      next :: walk k next target
  end.

Definition floor_distance (a b : Z) : nat := Z.to_nat (Z.abs (a - b)).

(** An interrupt that carries a position reading of floor [f] and no
    cabin selection; the tower inputs are left free. *)
Definition reports (f : Z) (io : Ports) : Prop :=
  limit_event io = Some f /\ elev_event io = None.

(** An interrupt with no event at all. *)
Definition quiet (io : Ports) : Prop :=
  limit_event io = None /\ elev_event io = None /\ tower_event io = None.

(** Power-on values of the program's variables: [state] is 'i' and the
    other globals are zero; the output registers are whatever the
    hardware holds. *)
Definition power_on (p1 p2 ta : Z) : Machine :=
  mkMachine Initializing 0 0 0 0 p1 p2 ta.

Inductive reachable : Machine -> Prop :=
| reachable_power_on p1 p2 ta : reachable (power_on p1 p2 ta)
| reachable_tick io m : reachable m -> reachable (WDT_interval_handler io m).

(** What every machine state between two interrupts satisfies. *)
Definition floors_ok (m : Machine) : Prop :=
  (state m <> Initializing -> 1 <= current_floor m <= 4) /\
  (moving_to_call (state m) = true \/ state m = AwaitingSelection ->
     1 <= called_floor m <= 4 /\
     (dest_direction m = CH_u \/ dest_direction m = CH_d)) /\
  (moving_to_call (state m) = true -> called_floor m <> current_floor m) /\
  (moving_to_destination (state m) = true ->
     1 <= destination m <= 4 /\ destination m <> current_floor m).

(** ** Transition tables, example machines and example inputs *)

(** The next-state column of the switch, as a function of the variables
    it reads. *)
Definition next_state (st : State) (cur called dest : Z) : State :=
  match st with
  | Initializing => if cur =? 1 then Idle else Initializing
  | Idle => Idle
  | MovingToCallUp => if called =? cur then AwaitingSelection else MovingToCallUp
  | MovingToCallDown => if called =? cur then AwaitingSelection else MovingToCallDown
  | AwaitingSelection => AwaitingSelection
  | MovingToDestinationUp => if dest =? cur then Idle else MovingToDestinationUp
  | MovingToDestinationDown => if dest =? cur then Idle else MovingToDestinationDown
  end.

(** The state in which [handle_elev_button] leaves the machine when it
    runs in [AwaitingSelection]. *)
Definition selection_state (dir cur f : Z) : State :=
  if f =? cur then AwaitingSelection
  else if (dir =? CH_u) && (f >? cur) then MovingToDestinationUp
  else if (dir =? CH_d) && (f <? cur) then MovingToDestinationDown
  else AwaitingSelection.

(** The state in which an accepted call leaves the machine. *)
Definition call_state (cur floor : Z) : State :=
  if floor =? cur then AwaitingSelection
  else if floor >? cur then MovingToCallUp
  else MovingToCallDown.

(** The part of [floors_ok] that holds at every point inside the
    polling prefix as well. *)
Definition ranges_ok (m : Machine) : Prop :=
  (state m <> Initializing -> 1 <= current_floor m <= 4) /\
  (moving_to_call (state m) = true \/ state m = AwaitingSelection ->
     1 <= called_floor m <= 4 /\
     (dest_direction m = CH_u \/ dest_direction m = CH_d)) /\
  (moving_to_destination (state m) = true -> 1 <= destination m <= 4).

(** The limit switch of floor 1 is closed and nothing else. *)
Definition io_floor1 : Ports := mkPorts 0 1.

(** The limit switch of floor 1 is closed and the floor-3 up button of
    the tower is pressed (address F3_UP in bits 5..7 of port 1). *)
Definition io_floor1_call3 : Ports := mkPorts 112 1.

(** The car after power-on, homed on floor 1: idle. *)
Definition m_idle_floor1 : Machine :=
  WDT_interval_handler io_floor1 (power_on 0 0 500).

(** Carrying a passenger up from floor 2 to floor 3, after a call
    (floor 2, up). *)
Definition m_going_up_to_3 : Machine :=
  mkMachine MovingToDestinationUp 2 2 3 CH_u 2 64 400.

(** The in-elevator button of floor 1 is pressed (address 0, enable
    bit set), nothing else. *)
Definition io_select1 : Ports := mkPorts 0 8.

(** The limit switch of floor 3, respectively floor 4, and nothing else. *)
Definition io_floor3 : Ports := mkPorts 0 5.
Definition io_floor4 : Ports := mkPorts 0 7.

(** The limit switch of floor 2 and nothing else. *)
Definition io_floor2 : Ports := mkPorts 0 3.

(** The car stands on the floor-1 limit switch and the floor-2 up
    button of the tower is pressed (address F2_UP). *)
Definition io_floor1_call2up : Ports := mkPorts 176 1.

(** The car stands on the floor-2 limit switch and the in-elevator
    button of floor 3 is pressed (address 2 in bits 4..5 of port 2). *)
Definition io_floor2_select3 : Ports := mkPorts 0 43.

(** The floor-3 up button of the tower is pressed, nothing else. *)
Definition io_call3 : Ports := mkPorts 112 0.

(** Going up to a call at floor 4 from floor 2. *)
Definition m_going_up_to_call4 : Machine :=
  mkMachine MovingToCallUp 2 4 0 CH_d 2 64 400.

(** Waiting on floor 3 after a call (floor 3, up). *)
Definition m_waiting_floor3_up : Machine :=
  mkMachine AwaitingSelection 3 3 0 CH_u 3 192 400.

(** Going up to a call at floor 3, last seen on floor 2. *)
Definition m_going_up_to_call3 : Machine :=
  mkMachine MovingToCallUp 2 3 0 CH_u 2 64 400.

(** No input line is active. *)
Definition io_none : Ports := mkPorts 0 0.

(** The four states in which the car is under way. *)
Definition moving (st : State) : bool :=
  moving_to_call st || moving_to_destination st.

(** The floor a moving state is heading for: the called floor on the
    way to a call, the destination with a passenger. *)
Definition target (m : Machine) : Z :=
  if moving_to_call (state m) then called_floor m else destination m.

(** The state in which a moving state ends on arrival. *)
Definition arrival_state (st : State) : State :=
  if moving_to_call st then AwaitingSelection else Idle.

(** ** Further views and the port initialisation *)

(** The number that the three address lines of the seven-segment
    decoder carry: SEVENSEG_A0 (port bit 0) is its bit 0, SEVENSEG_A1
    (port bit 1) its bit 1 and SEVENSEG_A2 (port bit 3) its bit 2. *)
Definition display_value (p1out : Z) : Z :=
  Z.b2z (Z.testbit p1out 0) + 2 * Z.b2z (Z.testbit p1out 1)
  + 4 * Z.b2z (Z.testbit p1out 3).

(** The current floor as seen by the switch of an interrupt: the
    position reading if there is one, the stored floor otherwise. *)
Definition floor_seen (io : Ports) (m : Machine) : Z :=
  match limit_event io with
  | Some f => f
  | None => current_floor m
  end.

(** The state changes that one interrupt can make. *)
Definition allowed_step (a b : State) : bool :=
  match a, b with
  | Initializing, (Initializing | Idle) => true
  | Idle, (Idle | MovingToCallUp | MovingToCallDown | AwaitingSelection) => true
  | MovingToCallUp, (MovingToCallUp | AwaitingSelection) => true
  | MovingToCallDown, (MovingToCallDown | AwaitingSelection) => true
  | AwaitingSelection,
    (AwaitingSelection | MovingToDestinationUp | MovingToDestinationDown) => true
  | MovingToDestinationUp, (MovingToDestinationUp | Idle) => true
  | MovingToDestinationDown, (MovingToDestinationDown | Idle) => true
  | _, _ => false
  end.

(** The port configuration registers that the initialisation functions
    write, next to the machine (for TA0CCR1). *)
Record Board : Type := mkBoard {
  P1DIR   : Z;
  P1SEL   : Z;
  P2DIR   : Z;
  P2SEL   : Z;
  TA0CCR0 : Z;
  machine : Machine
}.

Definition set_P1DIR (v : Z) (b : Board) : Board :=
  mkBoard v (P1SEL b) (P2DIR b) (P2SEL b) (TA0CCR0 b) (machine b).
Definition set_P1SEL (v : Z) (b : Board) : Board :=
  mkBoard (P1DIR b) v (P2DIR b) (P2SEL b) (TA0CCR0 b) (machine b).
Definition set_P2DIR (v : Z) (b : Board) : Board :=
  mkBoard (P1DIR b) (P1SEL b) v (P2SEL b) (TA0CCR0 b) (machine b).
Definition set_P2SEL (v : Z) (b : Board) : Board :=
  mkBoard (P1DIR b) (P1SEL b) (P2DIR b) v (TA0CCR0 b) (machine b).
Definition set_TA0CCR0 (v : Z) (b : Board) : Board :=
  mkBoard (P1DIR b) (P1SEL b) (P2DIR b) (P2SEL b) v (machine b).
Definition set_machine (v : Machine) (b : Board) : Board :=
  mkBoard (P1DIR b) (P1SEL b) (P2DIR b) (P2SEL b) (TA0CCR0 b) v.

Definition init_motor_control (b : Board) : Board :=
  let b := set_P1DIR (bis (P1DIR b) PWM) b in
  let b := set_P1SEL (bis (P1SEL b) PWM) b in
  let b := set_P2DIR (bis (P2DIR b) UPCTL) b in
  let b := set_P2DIR (bis (P2DIR b) DNCTL) b in
  let b := set_P2SEL (bic (P2SEL b) UPCTL) b in
  let b := set_P2SEL (bic (P2SEL b) DNCTL) b in
  let b := set_machine (set_TA0CCR1 500 (machine b)) b in
  set_TA0CCR0 999 b.

(** The address lines of the three encoders: LIMIT_A0, LIMIT_A1 are
    bits 1 and 2 of port 2, ELEV_A0, ELEV_A1 its bits 4 and 5, and
    TOWER_A0, TOWER_A1, TOWER_A2 are bits 5, 6 and 7 of port 1. *)
Definition LIMIT_A0 : Z := 2.
Definition LIMIT_A1 : Z := 4.
Definition ELEV_A0  : Z := 16.
Definition ELEV_A1  : Z := 32.
Definition TOWER_A0 : Z := 32.
Definition TOWER_A1 : Z := 64.
Definition TOWER_A2 : Z := 128.

Definition init_limit_switches (b : Board) : Board :=
  let b := set_P2DIR (bic (P2DIR b) LIMIT_EN) b in
  let b := set_P2DIR (bic (P2DIR b) LIMIT_A0) b in
  set_P2DIR (bic (P2DIR b) LIMIT_A1) b.

Definition init_elev_buttons (b : Board) : Board :=
  let b := set_P2DIR (bic (P2DIR b) ELEV_EN) b in
  let b := set_P2DIR (bic (P2DIR b) ELEV_A0) b in
  set_P2DIR (bic (P2DIR b) ELEV_A1) b.

Definition init_tower_buttons (b : Board) : Board :=
  let b := set_P1DIR (bic (P1DIR b) TOWER_EN) b in
  let b := set_P1DIR (bic (P1DIR b) TOWER_A0) b in
  let b := set_P1DIR (bic (P1DIR b) TOWER_A1) b in
  set_P1DIR (bic (P1DIR b) TOWER_A2) b.

Definition init_7segment (b : Board) : Board :=
  let b := set_P1DIR (bis (P1DIR b) SEVENSEG_A0) b in
  let b := set_P1DIR (bis (P1DIR b) SEVENSEG_A1) b in
  set_P1DIR (bis (P1DIR b) SEVENSEG_A2) b.

(** The five port initialisations of [main], in its order.  The clock
    calibration, [init_timerA] and [init_WDT] write registers whose
    constants come from the device header and are not modelled. *)
Definition init_ports (b : Board) : Board :=
  init_7segment
    (init_tower_buttons
       (init_elev_buttons
          (init_limit_switches
             (init_motor_control b)))).

(** Example inputs and machines for the properties below. *)
Definition io_waiting_select4 : Ports := mkPorts 0 56.
Definition m_initializing : Machine := power_on 0 0 500.

(** * Properties *)

Arguments u8 : simpl never.
Arguments bis : simpl never.
Arguments bic : simpl never.

(** ** Register-level facts about the motor functions *)

Lemma u8_testbit (z n : Z) :
  0 <= n < 8 -> Z.testbit (u8 z) n = Z.testbit z n.
Proof.
  intros Hn. unfold u8. change 256 with (2 ^ 8).
  apply Z.mod_pow2_bits_low. lia.
Qed.

Lemma bis_testbit (reg mask n : Z) :
  0 <= n < 8 -> Z.testbit (bis reg mask) n = Z.testbit reg n || Z.testbit mask n.
Proof.
  intros Hn. unfold bis. rewrite u8_testbit by assumption. apply Z.lor_spec.
Qed.

Lemma bic_testbit (reg mask n : Z) :
  0 <= n < 8 ->
  Z.testbit (bic reg mask) n = Z.testbit reg n && negb (Z.testbit mask n).
Proof.
  intros Hn. unfold bic. rewrite u8_testbit by assumption.
  rewrite Z.land_spec, Z.lnot_spec by lia. reflexivity.
Qed.

Lemma P2OUT_stop_motor (m : Machine) :
  P2OUT (stop_motor m) = bis (bis (P2OUT m) UPCTL) DNCTL.
Proof. reflexivity. Qed.

Lemma P2OUT_go_up (m : Machine) :
  P2OUT (go_up m) = bic (bis (P2OUT m) UPCTL) DNCTL.
Proof. reflexivity. Qed.

Lemma P2OUT_go_down (m : Machine) :
  P2OUT (go_down m) = bis (bic (P2OUT m) UPCTL) DNCTL.
Proof. reflexivity. Qed.

Lemma direction_line_bits :
  Z.testbit UPCTL 6 = true /\ Z.testbit UPCTL 7 = false /\
  Z.testbit DNCTL 6 = false /\ Z.testbit DNCTL 7 = true.
Proof. repeat split. Qed.

Ltac motor_bits :=
  destruct direction_line_bits as (U6 & U7 & D6 & D7);
  unfold motor_intent;
  rewrite ?P2OUT_stop_motor, ?P2OUT_go_up, ?P2OUT_go_down;
  repeat ((rewrite bis_testbit by lia) || (rewrite bic_testbit by lia));
  rewrite ?U6, ?U7, ?D6, ?D7;
  cbn [negb]; rewrite ?orb_true_r, ?andb_false_r, ?andb_true_r, ?orb_false_r; cbn [orb andb];
  reflexivity.

Lemma motor_intent_stop_motor (m : Machine) :
  motor_intent (stop_motor m) = Some Hold.
Proof. motor_bits. Qed.

Lemma motor_intent_go_up (m : Machine) :
  motor_intent (go_up m) = Some Up.
Proof. motor_bits. Qed.

Lemma motor_intent_go_down (m : Machine) :
  motor_intent (go_down m) = Some Down.
Proof. motor_bits. Qed.

Lemma motor_intent_set_state (st : State) (m : Machine) :
  motor_intent (set_state st m) = motor_intent m.
Proof. reflexivity. Qed.

(** ** The transition switch *)

Lemma switch_state (m : Machine) :
  state (handle_system_state m)
  = next_state (state m) (current_floor m) (called_floor m) (destination m).
Proof.
  unfold handle_system_state, next_state.
  destruct (state m) eqn:E;
    repeat match goal with
           | |- context [if ?c then _ else _] => destruct c
           end; try reflexivity; exact E.
Qed.

Lemma switch_frame (m : Machine) :
  current_floor (handle_system_state m) = current_floor m /\
  called_floor (handle_system_state m) = called_floor m /\
  destination (handle_system_state m) = destination m /\
  dest_direction (handle_system_state m) = dest_direction m /\
  P1OUT (handle_system_state m) = P1OUT m.
Proof.
  unfold handle_system_state.
  destruct (state m); repeat match goal with
                             | |- context [if ?c then _ else _] => destruct c
                             end; repeat split.
Qed.

Lemma switch_intent (m : Machine) :
  motor_intent (handle_system_state m)
  = Some (intent_of_state (state (handle_system_state m))).
Proof.
  unfold handle_system_state.
  destruct (state m) eqn:E;
    repeat match goal with
           | |- context [if ?c then _ else _] => destruct c
           end;
    unfold seq; rewrite ?motor_intent_set_state;
    rewrite ?motor_intent_stop_motor, ?motor_intent_go_up, ?motor_intent_go_down;
    cbn [state set_state]; try reflexivity;
    change (state (stop_motor m)) with (state m);
    change (state (go_up m)) with (state m);
    change (state (go_down m)) with (state m);
    rewrite E; reflexivity.
Qed.

(** ** The limit-switch handler *)

Lemma update_display_frame (floor : Z) (m : Machine) :
  update_display floor m = set_P1OUT (P1OUT (update_display floor m)) m.
Proof.
  unfold update_display.
  repeat match goal with
         | |- context [if ?c then _ else _] => destruct c
         end; destruct m; reflexivity.
Qed.

Lemma limit_frame (addr : Z) (m : Machine) :
  state (handle_limit_switch addr m) = state m /\
  current_floor (handle_limit_switch addr m) = u8 (addr + 1) /\
  called_floor (handle_limit_switch addr m) = called_floor m /\
  destination (handle_limit_switch addr m) = destination m /\
  dest_direction (handle_limit_switch addr m) = dest_direction m.
Proof.
  unfold handle_limit_switch, seq.
  rewrite update_display_frame. cbn [state current_floor called_floor destination dest_direction set_P1OUT].
  match goal with
  | |- context [if ?c then _ else _] => destruct c
  end; repeat split.
Qed.

Lemma limit_P2OUT (addr : Z) (m : Machine) :
  P2OUT (handle_limit_switch addr m)
  = if (u8 (addr + 1) =? 1) || (u8 (addr + 1) =? 4)
    then P2OUT (stop_motor m) else P2OUT m.
Proof.
  unfold handle_limit_switch, seq.
  rewrite update_display_frame. cbn [P2OUT set_P1OUT set_current_floor current_floor].
  match goal with
  | |- context [if ?c then _ else _] => destruct c
  end; reflexivity.
Qed.

(** ** The in-elevator button handler *)

Lemma elev_frame (addr : Z) (m : Machine) :
  destination (handle_elev_button addr m) = u8 (addr + 1) /\
  current_floor (handle_elev_button addr m) = current_floor m /\
  called_floor (handle_elev_button addr m) = called_floor m /\
  dest_direction (handle_elev_button addr m) = dest_direction m /\
  P1OUT (handle_elev_button addr m) = P1OUT m /\
  P2OUT (handle_elev_button addr m) = P2OUT m /\
  TA0CCR1 (handle_elev_button addr m) = TA0CCR1 m.
Proof.
  unfold handle_elev_button, seq.
  repeat match goal with
         | |- context [if ?c then _ else _] => destruct c
         end; repeat split.
Qed.

Lemma elev_state (addr : Z) (m : Machine) :
  state (handle_elev_button addr m)
  = match state m with
    | AwaitingSelection =>
        selection_state (dest_direction m) (current_floor m) (u8 (addr + 1))
    | st => st
    end.
Proof.
  unfold handle_elev_button, seq, selection_state.
  cbn [state set_destination destination current_floor dest_direction].
  destruct (state m) eqn:E; cbn [State_eqb state_char Z.eqb Pos.eqb];
    try exact E.
  repeat match goal with
         | |- context [if ?c then _ else _] => destruct c
         end; try reflexivity; exact E.
Qed.

(** ** The on-tower button handler *)

Lemma tower_not_idle (addr : Z) (m : Machine) :
  state m <> Idle -> handle_tower_button addr m = m.
Proof.
  intros H. unfold handle_tower_button, tower_case_mid, skip.
  assert (HI : State_eqb (state m) Idle = false)
    by (destruct (state m); try reflexivity; contradiction).
  repeat match goal with
         | |- context [if addr =? ?c then _ else _] => destruct (addr =? c)
         end; rewrite ?HI; reflexivity.
Qed.

Ltac split_ifs :=
  repeat match goal with
         | |- context [if ?c then _ else _] => destruct c eqn:?
         end.

Lemma tower_frame (addr : Z) (m : Machine) :
  current_floor (handle_tower_button addr m) = current_floor m /\
  destination (handle_tower_button addr m) = destination m /\
  P1OUT (handle_tower_button addr m) = P1OUT m.
Proof.
  unfold handle_tower_button, tower_case_mid, skip, seq.
  split_ifs; repeat split.
Qed.

Lemma tower_unlisted (addr : Z) (m : Machine) :
  tower_button addr = None -> handle_tower_button addr m = m.
Proof.
  unfold tower_button, handle_tower_button, skip.
  split_ifs; intros H; try discriminate H; reflexivity.
Qed.

Lemma State_eqb_Idle (m : Machine) : state m = Idle -> State_eqb (state m) Idle = true.
Proof. intros ->. reflexivity. Qed.

Ltac tower_addr_cases addr :=
  destruct (addr =? F1_UP);
  [|destruct (addr =? F2_DN);
    [|destruct (addr =? F2_UP);
      [|destruct (addr =? F3_DN);
        [|destruct (addr =? F3_UP);
          [|destruct (addr =? F4_DN)]]]]].

Lemma tower_idle_pending (addr floor dir : Z) (m : Machine) :
  state m = Idle ->
  tower_button addr = Some (floor, dir) ->
  called_floor (handle_tower_button addr m) = floor /\
  dest_direction (handle_tower_button addr m) = dir.
Proof.
  intros HI. unfold tower_button, handle_tower_button.
  tower_addr_cases addr; intros H; inversion H; subst; clear H;
    unfold tower_case_mid, seq; rewrite (State_eqb_Idle m HI);
    split_ifs; repeat split.
Qed.

Lemma tower_idle_state (addr floor dir : Z) (m : Machine) :
  state m = Idle ->
  tower_button addr = Some (floor, dir) ->
  1 <= current_floor m <= 4 ->
  state (handle_tower_button addr m) = call_state (current_floor m) floor.
Proof.
  intros HI Hb Hc. revert Hb.
  unfold tower_button, handle_tower_button.
  tower_addr_cases addr; intros H; inversion H; subst; clear H;
    unfold tower_case_mid, seq, call_state; rewrite (State_eqb_Idle m HI);
    cbn [current_floor set_called_floor set_dest_direction];
    rewrite (Z.eqb_sym (current_floor m));
    match goal with
    | |- context [?f =? current_floor m] =>
        destruct (Z.eqb_spec f (current_floor m)); cbn [negb]; try reflexivity;
        destruct (Z.gtb_spec f (current_floor m));
        try destruct (Z.gtb_spec (current_floor m) f);
        try reflexivity; lia
    end.
Qed.

(** ** The polling prefix of the interrupt *)

Lemma poll_quiet (io : Ports) (m : Machine) :
  quiet io -> poll_sensors io m = m.
Proof.
  unfold quiet, limit_event, elev_event, tower_event, poll_sensors, seq, skip.
  intros (H1 & H2 & H3). revert H1 H2 H3.
  destruct (negb (Z.land (P2IN io) LIMIT_EN =? 0)); [discriminate|].
  destruct (negb (Z.land (P2IN io) ELEV_EN =? 0)); [discriminate|].
  destruct (negb (Z.land (P1IN io) TOWER_EN =? 0)); [discriminate|].
  reflexivity.
Qed.

Lemma poll_current_floor (io : Ports) (m : Machine) :
  current_floor (poll_sensors io m)
  = match limit_event io with
    | Some f => f
    | None => current_floor m
    end.
Proof.
  unfold limit_event, poll_sensors, seq, skip.
  destruct (negb (Z.land (P2IN io) LIMIT_EN =? 0));
    destruct (negb (Z.land (P2IN io) ELEV_EN =? 0));
    destruct (negb (Z.land (P1IN io) TOWER_EN =? 0));
    rewrite ?(proj1 (tower_frame _ _));
    rewrite ?(proj1 (proj2 (elev_frame _ _)));
    rewrite ?(proj1 (proj2 (limit_frame _ _))); reflexivity.
Qed.

Lemma poll_destination (io : Ports) (m : Machine) :
  destination (poll_sensors io m)
  = match elev_event io with
    | Some f => f
    | None => destination m
    end.
Proof.
  unfold elev_event, poll_sensors, seq, skip.
  destruct (negb (Z.land (P2IN io) LIMIT_EN =? 0));
    destruct (negb (Z.land (P2IN io) ELEV_EN =? 0));
    destruct (negb (Z.land (P1IN io) TOWER_EN =? 0));
    rewrite ?(proj1 (proj2 (tower_frame _ _)));
    rewrite ?(proj1 (elev_frame _ _));
    rewrite ?(proj1 (proj2 (proj2 (proj2 (limit_frame _ _))))); reflexivity.
Qed.

Lemma elev_not_idle (addr : Z) (m : Machine) :
  state m <> Idle -> state (handle_elev_button addr m) <> Idle.
Proof.
  intros H. rewrite elev_state. unfold selection_state.
  destruct (state m); try exact H; split_ifs; discriminate.
Qed.

(** While the machine is not idle, the polling prefix leaves the
    pending call alone; the tower handler returns the machine as is. *)
Lemma poll_not_idle (io : Ports) (m : Machine) :
  state m <> Idle ->
  poll_sensors io m
  = (if negb (Z.land (P2IN io) ELEV_EN =? 0)
     then handle_elev_button (get_elev_addr io) else skip)
      ((if negb (Z.land (P2IN io) LIMIT_EN =? 0)
        then handle_limit_switch (get_limit_addr io) else skip) m).
Proof.
  intros H. unfold poll_sensors, seq.
  destruct (negb (Z.land (P1IN io) TOWER_EN =? 0)); [|reflexivity].
  apply tower_not_idle.
  destruct (negb (Z.land (P2IN io) ELEV_EN =? 0)); unfold skip.
  - apply elev_not_idle.
    destruct (negb (Z.land (P2IN io) LIMIT_EN =? 0)); [|exact H].
    rewrite (proj1 (limit_frame _ _)). exact H.
  - destruct (negb (Z.land (P2IN io) LIMIT_EN =? 0)); [|exact H].
    rewrite (proj1 (limit_frame _ _)). exact H.
Qed.

Lemma poll_called_floor (io : Ports) (m : Machine) :
  state m <> Idle ->
  called_floor (poll_sensors io m) = called_floor m /\
  dest_direction (poll_sensors io m) = dest_direction m.
Proof.
  intros H. rewrite (poll_not_idle io m H). unfold skip.
  destruct (negb (Z.land (P2IN io) ELEV_EN =? 0));
    destruct (negb (Z.land (P2IN io) LIMIT_EN =? 0)); split;
    rewrite ?(proj1 (proj2 (proj2 (elev_frame _ _))));
    rewrite ?(proj1 (proj2 (proj2 (proj2 (elev_frame _ _)))));
    rewrite ?(proj1 (proj2 (proj2 (limit_frame _ _))));
    rewrite ?(proj2 (proj2 (proj2 (proj2 (limit_frame _ _))))); reflexivity.
Qed.

(** In a state that neither button handler acts on, polling leaves
    [state] as it is. *)
Lemma poll_state_frozen (io : Ports) (m : Machine) :
  state m <> Idle -> state m <> AwaitingSelection ->
  state (poll_sensors io m) = state m.
Proof.
  intros HI HW. rewrite (poll_not_idle io m HI). unfold skip.
  assert (HE : forall a x, state x <> AwaitingSelection ->
                           state (handle_elev_button a x) = state x).
  { intros a x Hx. rewrite elev_state. destruct (state x); try reflexivity.
    contradiction. }
  destruct (negb (Z.land (P2IN io) ELEV_EN =? 0));
    destruct (negb (Z.land (P2IN io) LIMIT_EN =? 0));
    rewrite ?HE; rewrite ?(proj1 (limit_frame _ _)); auto.
Qed.

(** ** Ranges of the decoded addresses *)

Lemma masked_shift_range (p mask n k : Z) :
  0 <= n -> 0 <= k -> Z.shiftr mask n = Z.ones k ->
  0 <= Z.shiftr (Z.land p mask) n < 2 ^ k.
Proof.
  intros Hn Hk Hm. rewrite Z.shiftr_land, Hm, Z.land_ones by assumption.
  apply Z.mod_pos_bound. apply Z.pow_pos_nonneg; lia.
Qed.

Lemma get_limit_addr_range (io : Ports) : 0 <= get_limit_addr io <= 3.
Proof.
  unfold get_limit_addr, u8, LIMIT_ADDR_MASK.
  pose proof (masked_shift_range (P2IN io) 6 1 2) as H.
  change (2 ^ 2) with 4 in H.
  rewrite Z.mod_small; specialize (H ltac:(lia) ltac:(lia) eq_refl); lia.
Qed.

Lemma get_elev_addr_range (io : Ports) : 0 <= get_elev_addr io <= 3.
Proof.
  unfold get_elev_addr, u8, ELEV_ADDR_MASK.
  pose proof (masked_shift_range (P2IN io) 48 4 2) as H.
  change (2 ^ 2) with 4 in H.
  rewrite Z.mod_small; specialize (H ltac:(lia) ltac:(lia) eq_refl); lia.
Qed.

Lemma get_tower_addr_range (io : Ports) : 0 <= get_tower_addr io <= 7.
Proof.
  unfold get_tower_addr, u8, TOWER_ADDR_MASK.
  pose proof (masked_shift_range (P1IN io) 224 5 3) as H.
  change (2 ^ 3) with 8 in H.
  rewrite Z.mod_small; specialize (H ltac:(lia) ltac:(lia) eq_refl); lia.
Qed.

Lemma u8_small (z : Z) : 0 <= z < 256 -> u8 z = z.
Proof. intros H. unfold u8. apply Z.mod_small. exact H. Qed.

Lemma limit_event_range (io : Ports) (f : Z) :
  limit_event io = Some f -> 1 <= f <= 4.
Proof.
  unfold limit_event. destruct (negb _); [|discriminate].
  intros H. inversion H; subst; clear H.
  pose proof (get_limit_addr_range io). rewrite u8_small; lia.
Qed.

Lemma elev_event_range (io : Ports) (f : Z) :
  elev_event io = Some f -> 1 <= f <= 4.
Proof.
  unfold elev_event. destruct (negb _); [|discriminate].
  intros H. inversion H; subst; clear H.
  pose proof (get_elev_addr_range io). rewrite u8_small; lia.
Qed.

(** ** One interrupt *)

Lemma tick_state (io : Ports) (m : Machine) :
  state (WDT_interval_handler io m)
  = next_state (state (poll_sensors io m)) (current_floor (poll_sensors io m))
               (called_floor (poll_sensors io m)) (destination (poll_sensors io m)).
Proof. unfold WDT_interval_handler, seq. apply switch_state. Qed.

Lemma tick_intent (io : Ports) (m : Machine) :
  motor_intent (WDT_interval_handler io m)
  = Some (intent_of_state (state (WDT_interval_handler io m))).
Proof. unfold WDT_interval_handler, seq. apply switch_intent. Qed.

Lemma tick_frame (io : Ports) (m : Machine) :
  current_floor (WDT_interval_handler io m) = current_floor (poll_sensors io m) /\
  called_floor (WDT_interval_handler io m) = called_floor (poll_sensors io m) /\
  destination (WDT_interval_handler io m) = destination (poll_sensors io m) /\
  dest_direction (WDT_interval_handler io m) = dest_direction (poll_sensors io m).
Proof.
  unfold WDT_interval_handler, seq.
  destruct (switch_frame (poll_sensors io m)) as (H1 & H2 & H3 & H4 & _).
  repeat split; assumption.
Qed.

(** ** Ranges of the floor variables between interrupts *)

Lemma floors_ok_ranges (m : Machine) : floors_ok m -> ranges_ok m.
Proof.
  intros (H1 & H2 & _ & H4). repeat split; try tauto; apply H4; assumption.
Qed.

Lemma tower_button_range (addr floor dir : Z) :
  tower_button addr = Some (floor, dir) ->
  1 <= floor <= 4 /\ (dir = CH_u \/ dir = CH_d).
Proof.
  unfold tower_button.
  tower_addr_cases addr; intros H; inversion H; subst; split; auto; lia.
Qed.

Lemma limit_ranges (addr : Z) (m : Machine) :
  0 <= addr <= 3 -> ranges_ok m -> ranges_ok (handle_limit_switch addr m).
Proof.
  intros Ha (H1 & H2 & H3).
  destruct (limit_frame addr m) as (Es & Ec & Ek & Ed & Er).
  unfold ranges_ok. rewrite Es, Ec, Ek, Ed, Er.
  rewrite u8_small by lia. repeat split; try tauto; lia.
Qed.

Lemma elev_ranges (addr : Z) (m : Machine) :
  0 <= addr <= 3 -> ranges_ok m -> ranges_ok (handle_elev_button addr m).
Proof.
  intros Ha (H1 & H2 & H3).
  destruct (elev_frame addr m) as (Ed & Ec & Ek & Er & _).
  unfold ranges_ok. rewrite Ed, Ec, Ek, Er, elev_state.
  rewrite u8_small by lia. unfold selection_state.
  destruct (state m) eqn:E; split_ifs; cbn [moving_to_call moving_to_destination];
    (split; [|split]); intros; try discriminate; try lia;
    try congruence;
    try (apply H1; discriminate); try (apply H2; auto; fail);
    try (destruct H as [H|H]; discriminate H).
Qed.

Lemma tower_ranges (addr : Z) (m : Machine) :
  ranges_ok m -> ranges_ok (handle_tower_button addr m).
Proof.
  intros R.
  destruct (State_eqb (state m) Idle) eqn:EI.
  - assert (HI : state m = Idle) by (destruct (state m); try discriminate; reflexivity).
    destruct (tower_button addr) as [[floor dir]|] eqn:Eb.
    + destruct (tower_button_range _ _ _ Eb) as (Hf & Hd).
      destruct (tower_idle_pending _ _ _ _ HI Eb) as (Ek & Er).
      destruct (tower_frame addr m) as (Ec & Ed & _).
      destruct R as (H1 & H2 & H3).
      assert (Hc : 1 <= current_floor m <= 4) by (apply H1; rewrite HI; discriminate).
      pose proof (tower_idle_state _ _ _ _ HI Eb Hc) as Es.
      unfold ranges_ok. rewrite Ek, Er, Ec, Ed, Es. unfold call_state.
      split_ifs; cbn [moving_to_call moving_to_destination];
        repeat split; intros; try discriminate; auto; lia.
    + rewrite tower_unlisted by assumption. exact R.
  - rewrite tower_not_idle; [exact R|].
    intros HI. rewrite HI in EI. discriminate.
Qed.

Lemma poll_ranges (io : Ports) (m : Machine) :
  ranges_ok m -> ranges_ok (poll_sensors io m).
Proof.
  intros R. unfold poll_sensors, seq, skip.
  pose proof (get_limit_addr_range io). pose proof (get_elev_addr_range io).
  destruct (negb (Z.land (P2IN io) LIMIT_EN =? 0));
    destruct (negb (Z.land (P2IN io) ELEV_EN =? 0));
    destruct (negb (Z.land (P1IN io) TOWER_EN =? 0));
    repeat first [apply tower_ranges | apply elev_ranges | apply limit_ranges];
    assumption.
Qed.

Lemma switch_floors_ok (m : Machine) :
  ranges_ok m -> floors_ok (handle_system_state m).
Proof.
  intros (H1 & H2 & H3).
  destruct (switch_frame m) as (Ec & Ek & Ed & Er & _).
  unfold floors_ok. rewrite Ec, Ek, Ed, Er, switch_state. unfold next_state.
  destruct (state m) eqn:E;
    repeat match goal with
           | |- context [?a =? ?b] => destruct (Z.eqb_spec a b)
           end;
    cbn [moving_to_call moving_to_destination] in *;
    repeat split; intros; try discriminate; try lia;
    try (apply H1; discriminate); try (apply H2; auto; fail);
    try (apply H3; reflexivity);
    try (destruct H as [H|H]; discriminate H);
    try congruence.
Qed.

Lemma tick_floors_ok (io : Ports) (m : Machine) :
  floors_ok m -> floors_ok (WDT_interval_handler io m).
Proof.
  intros H. unfold WDT_interval_handler, seq.
  apply switch_floors_ok, poll_ranges, floors_ok_ranges, H.
Qed.

(** Every machine state that the program can be in between two
    interrupts satisfies [floors_ok]. *)
Lemma reachable_floors_ok (m : Machine) : reachable m -> floors_ok m.
Proof.
  induction 1 as [p1 p2 ta | io m _ IH].
  - unfold floors_ok, power_on; cbn [state moving_to_call moving_to_destination].
    split; [|split; [|split]]; intros H;
      try discriminate H; try congruence; destruct H as [H|H]; discriminate H.
  - apply tick_floors_ok, IH.
Qed.

(** ** The program on concrete runs *)

Lemma reachable_run (ios : list Ports) (m : Machine) :
  reachable m -> reachable (run ios m).
Proof.
  revert m. induction ios as [|io rest IH]; intros m H; cbn [run].
  - exact H.
  - apply IH, reachable_tick, H.
Qed.

(** Power-on away from floor 1: the car is sent down until the floor-1
    limit switch closes, then it is idle with the motor held. *)
Example homing_run :
  map (fun m => (state m, motor_intent m))
      (run_trace [io_none; io_floor2; io_floor1] (power_on 0 0 500))
  = [(Initializing, Some Down); (Initializing, Some Down); (Idle, Some Hold)].
Proof. vm_compute. reflexivity. Qed.

(** Idle on floor 1, a call (floor 3, up): up until floor 3, then
    waiting for a selection with the motor held. *)
Example call_run :
  map (fun m => (state m, current_floor m, motor_intent m))
      (run_trace [io_floor1_call3; io_floor2; io_floor3] m_idle_floor1)
  = [(MovingToCallUp, 1, Some Up); (MovingToCallUp, 2, Some Up);
     (AwaitingSelection, 3, Some Hold)].
Proof. vm_compute. reflexivity. Qed.

(** The machine used in the examples below is one the program reaches:
    homed on floor 1, called to floor 2 (up), arrived, floor 3 selected. *)
Lemma m_going_up_to_3_reachable : reachable m_going_up_to_3.
Proof.
  replace m_going_up_to_3
    with (run [io_floor1; io_floor1_call2up; io_floor2; io_floor2_select3]
              (power_on 0 0 500))
    by (vm_compute; reflexivity).
  apply reachable_run, reachable_power_on.
Qed.

(** * The claims *)

(** ** C1: the limit-switch interlock *)

(** C1, as stated, fails: the car is idle on floor 1, the floor-1 limit
    switch reports floor 1, and in the same interrupt a call to floor 3
    is accepted.  The interrupt ends with the motor commanded up, not
    held: the transition switch runs after the limit-switch handler and
    its command replaces the handler's stop. *)
Lemma C1_counterexample :
  reachable m_idle_floor1 /\
  state m_idle_floor1 = Idle /\
  limit_event io_floor1_call3 = Some 1 /\
  motor_intent (handle_limit_switch (get_limit_addr io_floor1_call3) m_idle_floor1)
    = Some Hold /\
  motor_intent (WDT_interval_handler io_floor1_call3 m_idle_floor1) = Some Up /\
  motor_intent (WDT_interval_handler io_floor1_call3 m_idle_floor1) <> Some Hold.
Proof.
  split; [apply reachable_tick, reachable_power_on|].
  repeat split; try (vm_compute; reflexivity).
  vm_compute. discriminate.
Qed.

(** C1, amended: in every interrupt whose position reading is floor 1
    or floor 4, the limit-switch handler runs first and leaves the motor
    in Hold; at the end of the interrupt the motor is in Hold whenever
    the interrupt ends in Idle or AwaitingSelection. *)
Theorem C1_interlock_then_switch (io : Ports) (m : Machine) (f : Z) :
  limit_event io = Some f ->
  f = 1 \/ f = 4 ->
  let after_limit := handle_limit_switch (get_limit_addr io) m in
  motor_intent after_limit = Some Hold /\
  WDT_interval_handler io m
    = handle_system_state
        ((if negb (Z.land (P1IN io) TOWER_EN =? 0)
          then handle_tower_button (get_tower_addr io) else skip)
           ((if negb (Z.land (P2IN io) ELEV_EN =? 0)
             then handle_elev_button (get_elev_addr io) else skip)
              after_limit)) /\
  (state (WDT_interval_handler io m) = Idle \/
   state (WDT_interval_handler io m) = AwaitingSelection ->
   motor_intent (WDT_interval_handler io m) = Some Hold).
Proof.
  intros Hev Hf after_limit. split; [|split].
  - unfold after_limit, motor_intent. rewrite limit_P2OUT.
    unfold limit_event in Hev.
    destruct (negb (Z.land (P2IN io) LIMIT_EN =? 0)); [|discriminate].
    inversion Hev as [Hu]. rewrite Hu.
    assert (E : (f =? 1) || (f =? 4) = true)
      by (destruct Hf; subst f; reflexivity).
    rewrite E. apply motor_intent_stop_motor.
  - unfold WDT_interval_handler, poll_sensors, seq, after_limit.
    unfold limit_event in Hev.
    destruct (negb (Z.land (P2IN io) LIMIT_EN =? 0)); [reflexivity|discriminate].
  - intros Hs. rewrite tick_intent. destruct Hs as [-> | ->]; reflexivity.
Qed.

Lemma C1_interlock_then_switch_witness :
  motor_intent (handle_limit_switch (get_limit_addr io_floor1) m_idle_floor1)
    = Some Hold /\
  motor_intent (WDT_interval_handler io_floor1 m_idle_floor1) = Some Hold.
Proof.
  destruct (C1_interlock_then_switch io_floor1 m_idle_floor1 1) as (H1 & _ & H3).
  - reflexivity.
  - left; reflexivity.
  - split; [exact H1|]. apply H3. left. reflexivity.
Defined.

(** ** C2: selections outside AwaitingSelection *)

(** What [handle_elev_button] leaves alone outside AwaitingSelection:
    the state, and every variable except [destination]. *)
Lemma elev_outside_selection (addr : Z) (m : Machine) :
  state m <> AwaitingSelection ->
  handle_elev_button addr m = set_destination (u8 (addr + 1)) m.
Proof.
  intros H. unfold handle_elev_button, seq.
  cbn [state set_destination].
  destruct (state m); try reflexivity. contradiction.
Qed.

(** C2 on the code: a selection of floor 1 while the car carries a
    passenger up to floor 3 leaves the state alone but replaces the
    stored destination 3 by 1; the car then passes floor 3 and is still
    commanded up at floor 4. *)
Theorem C2_selection_overwrites_destination :
  reachable m_going_up_to_3 /\
  elev_event io_select1 = Some 1 /\
  state m_going_up_to_3 = MovingToDestinationUp /\
  destination m_going_up_to_3 = 3 /\
  state (handle_elev_button (get_elev_addr io_select1) m_going_up_to_3)
    = MovingToDestinationUp /\
  destination (handle_elev_button (get_elev_addr io_select1) m_going_up_to_3) = 1 /\
  let m' := run [io_select1; io_floor3; io_floor4] m_going_up_to_3 in
  current_floor m' = 4 /\ state m' = MovingToDestinationUp /\
  motor_intent m' = Some Up.
Proof.
  split; [exact m_going_up_to_3_reachable|].
  repeat split; vm_compute; reflexivity.
Qed.

(** ** C3: arriving at the destination *)

(** C3, as stated, fails: the car carries a passenger up to floor 3
    and the limit switch reports floor 3.  The interrupt ends in Idle
    with the motor held, but the stored call (floor 2, up) and the
    stored destination 3 are still there: the program has no statement
    that clears them. *)
Lemma C3_counterexample :
  let m' := WDT_interval_handler io_floor3 m_going_up_to_3 in
  reachable m_going_up_to_3 /\
  state m_going_up_to_3 = MovingToDestinationUp /\
  current_floor m' = destination m' /\
  state m' = Idle /\
  motor_intent m' = Some Hold /\
  PendingCall m' = Some (2, CH_u) /\
  PendingDestination m' = Some 3 /\
  ~ (PendingCall m' = None /\ PendingDestination m' = None).
Proof.
  split; [exact m_going_up_to_3_reachable|].
  repeat split; try (vm_compute; reflexivity).
  vm_compute. intros [H _]. discriminate H.
Qed.

(** C3, amended: an interrupt taken in MovingToDestinationUp or
    MovingToDestinationDown reaches the switch in that same state; if
    the current floor then equals the stored destination the machine
    goes to Idle and the motor is held, and the stored call floor, call
    direction and destination keep their values; otherwise the state
    stays and the motor is commanded up (respectively down). *)
Theorem C3_destination_arrival (io : Ports) (m : Machine) :
  moving_to_destination (state m) = true ->
  let p := poll_sensors io m in
  let m' := WDT_interval_handler io m in
  state p = state m /\
  current_floor p = match limit_event io with
                    | Some f => f
                    | None => current_floor m
                    end /\
  destination p = match elev_event io with
                  | Some f => f
                  | None => destination m
                  end /\
  (destination p = current_floor p ->
   state m' = Idle /\ motor_intent m' = Some Hold /\
   called_floor m' = called_floor m /\
   dest_direction m' = dest_direction m /\
   destination m' = destination p /\
   current_floor m' = current_floor p) /\
  (destination p <> current_floor p ->
   state m' = state m /\
   motor_intent m' = Some (match state m with
                           | MovingToDestinationUp => Up
                           | _ => Down
                           end)).
Proof.
  intros Hmv p m'.
  assert (HI : state m <> Idle) by (intros E; rewrite E in Hmv; discriminate).
  assert (HW : state m <> AwaitingSelection)
    by (intros E; rewrite E in Hmv; discriminate).
  pose proof (poll_state_frozen io m HI HW) as Hp.
  destruct (poll_called_floor io m HI) as (Hk & Hr).
  destruct (tick_frame io m) as (Fc & Fk & Fd & Fr).
  pose proof (tick_state io m) as Hs. pose proof (tick_intent io m) as Hi.
  fold p in Hp, Hk, Hr, Fc, Fk, Fd, Fr, Hs. fold m' in Fc, Fk, Fd, Fr, Hs, Hi.
  split; [exact Hp|].
  split; [apply poll_current_floor|].
  split; [apply poll_destination|].
  rewrite Hp in Hs. unfold next_state in Hs.
  split.
  - intros E. apply Z.eqb_eq in E.
    assert (Es : state m' = Idle)
      by (rewrite Hs; destruct (state m); try discriminate Hmv; rewrite E; reflexivity).
    rewrite Hi, Es. repeat split; congruence.
  - intros E. apply Z.eqb_neq in E.
    assert (Es : state m' = state m)
      by (rewrite Hs; destruct (state m); try discriminate Hmv; rewrite E; reflexivity).
    rewrite Hi, Es. split; [reflexivity|].
    destruct (state m); try discriminate Hmv; reflexivity.
Qed.

Lemma C3_destination_arrival_witness :
  state (WDT_interval_handler io_floor3 m_going_up_to_3) = Idle /\
  motor_intent (WDT_interval_handler io_floor3 m_going_up_to_3) = Some Hold /\
  destination (WDT_interval_handler io_floor3 m_going_up_to_3) = 3.
Proof.
  destruct (C3_destination_arrival io_floor3 m_going_up_to_3 eq_refl)
    as (_ & _ & _ & H & _).
  destruct (H eq_refl) as (H1 & H2 & _ & _ & H5 & _).
  repeat split; assumption.
Defined.

(** ** C4: calls outside Idle *)

(** C4: in every state other than Idle, [handle_tower_button] returns
    the machine exactly as it received it, for every button address:
    state, called floor, direction, destination and the motor registers
    are the same, so no motor function has run.  With it, a whole
    interrupt taken outside Idle leaves the stored call alone. *)
Theorem C4_call_rejected_unless_idle (addr : Z) (io : Ports) (m : Machine) :
  state m <> Idle ->
  handle_tower_button addr m = m /\
  called_floor (WDT_interval_handler io m) = called_floor m /\
  dest_direction (WDT_interval_handler io m) = dest_direction m.
Proof.
  intros H. split; [apply tower_not_idle, H|].
  destruct (tick_frame io m) as (_ & Fk & _ & Fr).
  destruct (poll_called_floor io m H) as (Hk & Hr).
  split; congruence.
Qed.

Lemma C4_call_rejected_unless_idle_witness :
  handle_tower_button F3_UP m_going_up_to_call4 = m_going_up_to_call4 /\
  called_floor (WDT_interval_handler io_call3 m_going_up_to_call4) = 4.
Proof.
  destruct (C4_call_rejected_unless_idle F3_UP io_call3 m_going_up_to_call4)
    as (H1 & H2 & _).
  - discriminate.
  - split; [exact H1 | exact H2].
Defined.

(** ** C5: selections in AwaitingSelection *)

(** C5: in AwaitingSelection, a selection of floor [f] (the button
    address plus one) is stored as the destination; the state becomes
    MovingToDestinationUp exactly when the call direction is up and [f]
    is above the current floor, MovingToDestinationDown exactly when the
    call direction is down and [f] is below it, and stays
    AwaitingSelection in every other case, in particular when [f] is the
    current floor. *)
Theorem C5_selection_direction (addr : Z) (m : Machine) :
  state m = AwaitingSelection ->
  let f := u8 (addr + 1) in
  let m' := handle_elev_button addr m in
  let accepted := state m' = MovingToDestinationUp \/
                  state m' = MovingToDestinationDown in
  destination m' = f /\
  (f = current_floor m -> state m' = AwaitingSelection) /\
  (state m' = MovingToDestinationUp <->
   dest_direction m = CH_u /\ f > current_floor m) /\
  (state m' = MovingToDestinationDown <->
   dest_direction m = CH_d /\ f < current_floor m) /\
  (accepted <->
   (dest_direction m = CH_u /\ f > current_floor m) \/
   (dest_direction m = CH_d /\ f < current_floor m)) /\
  (~ accepted -> state m' = AwaitingSelection).
Proof.
  intros Hw f m' accepted.
  assert (Hs : state m' = selection_state (dest_direction m) (current_floor m) f)
    by (unfold m'; rewrite elev_state, Hw; reflexivity).
  assert (Hd : destination m' = f) by apply (proj1 (elev_frame addr m)).
  unfold accepted. rewrite Hs. unfold selection_state, CH_u, CH_d.
  split; [exact Hd|].
  destruct (Z.eqb_spec f (current_floor m)) as [Ef|Ef];
    destruct (Z.eqb_spec (dest_direction m) 117) as [Eu|Eu];
    destruct (Z.eqb_spec (dest_direction m) 100) as [Ed|Ed];
    destruct (Z.gtb_spec f (current_floor m));
    destruct (Z.ltb_spec f (current_floor m));
    cbn [andb]; try lia;
    repeat split; intros; try reflexivity; try discriminate; try lia;
    try tauto;
    repeat match goal with
           | H : _ /\ _ |- _ => destruct H
           | H : _ \/ _ |- _ => destruct H
           end; try discriminate; try lia; try tauto.
Qed.

Lemma C5_selection_direction_witness :
  destination (handle_elev_button 3 m_waiting_floor3_up) = 4 /\
  state (handle_elev_button 3 m_waiting_floor3_up) = MovingToDestinationUp.
Proof.
  destruct (C5_selection_direction 3 m_waiting_floor3_up eq_refl)
    as (H1 & _ & H3 & _).
  split; [exact H1|]. apply H3. split; [reflexivity|]. vm_compute. reflexivity.
Defined.

(** ** C6: calls in Idle *)

(** C6: in Idle, with the current floor one of the floors 1..4 (as it
    is in every Idle state the program reaches, [reachable_floors_ok]),
    a press of a listed tower button stores that button's floor and
    direction as the call, and the state becomes AwaitingSelection when
    the floor is the current floor, MovingToCallUp when it is above and
    MovingToCallDown when it is below. *)
Theorem C6_call_accepted (addr floor dir : Z) (m : Machine) :
  state m = Idle ->
  1 <= current_floor m <= 4 ->
  tower_button addr = Some (floor, dir) ->
  let m' := handle_tower_button addr m in
  called_floor m' = floor /\
  dest_direction m' = dir /\
  (floor = current_floor m -> state m' = AwaitingSelection) /\
  (floor > current_floor m -> state m' = MovingToCallUp) /\
  (floor < current_floor m -> state m' = MovingToCallDown).
Proof.
  intros HI Hc Hb m'.
  destruct (tower_idle_pending _ _ _ _ HI Hb) as (Hk & Hr).
  pose proof (tower_idle_state _ _ _ _ HI Hb Hc) as Hs.
  fold m' in Hk, Hr, Hs. rewrite Hs. unfold call_state.
  split; [exact Hk|]. split; [exact Hr|].
  destruct (Z.eqb_spec floor (current_floor m));
    destruct (Z.gtb_spec floor (current_floor m));
    repeat split; intros; try reflexivity; lia.
Qed.

Lemma C6_call_accepted_witness :
  called_floor (handle_tower_button F3_UP m_idle_floor1) = 3 /\
  dest_direction (handle_tower_button F3_UP m_idle_floor1) = CH_u /\
  state (handle_tower_button F3_UP m_idle_floor1) = MovingToCallUp.
Proof.
  destruct (C6_call_accepted F3_UP 3 CH_u m_idle_floor1)
    as (H1 & H2 & _ & H4 & _).
  - reflexivity.
  - vm_compute. split; discriminate.
  - reflexivity.
  - split; [exact H1|]. split; [exact H2|]. apply H4. reflexivity.
Defined.

(** ** C7: order of the steps of one interrupt *)

(** C7: when the interrupt carries a position reading [f], the limit
    switch handler runs first, so that
    - both button handlers and the switch see [f] as the current floor,
      whatever the current floor was before the interrupt;
    - a call accepted in this interrupt picks its direction against
      [f], and a selection is checked against [f];
    - the state after the interrupt is the switch's next state for the
      state left by the handlers and the floor [f]; in particular a car
      moving to a call at floor [f], or to a destination [f], arrives in
      this very interrupt. *)
Theorem C7_position_first (io : Ports) (m : Machine) (f : Z) :
  limit_event io = Some f ->
  let p := poll_sensors io m in
  let m' := WDT_interval_handler io m in
  p = (if negb (Z.land (P1IN io) TOWER_EN =? 0)
       then handle_tower_button (get_tower_addr io) else skip)
        ((if negb (Z.land (P2IN io) ELEV_EN =? 0)
          then handle_elev_button (get_elev_addr io) else skip)
           (handle_limit_switch (get_limit_addr io) m)) /\
  current_floor (handle_limit_switch (get_limit_addr io) m) = f /\
  current_floor p = f /\
  current_floor m' = f /\
  state m' = next_state (state p) f (called_floor p) (destination p) /\
  (forall addr floor dir,
      state m = Idle -> tower_event io = Some addr ->
      tower_button addr = Some (floor, dir) ->
      state p = call_state f floor) /\
  (forall g,
      state m = AwaitingSelection -> elev_event io = Some g ->
      state p = selection_state (dest_direction m) f g) /\
  (moving_to_call (state m) = true -> called_floor m = f ->
   state m' = AwaitingSelection /\ motor_intent m' = Some Hold) /\
  (moving_to_destination (state m) = true -> elev_event io = None ->
   destination m = f ->
   state m' = Idle /\ motor_intent m' = Some Hold).
Proof.
  intros Hev p m'.
  pose proof (limit_event_range io f Hev) as Hrange.
  pose proof (poll_current_floor io m) as Hc. rewrite Hev in Hc. fold p in Hc.
  destruct (tick_frame io m) as (Fc & _).
  pose proof (tick_state io m) as Hs. fold p in Hs, Fc. fold m' in Hs, Fc.
  rewrite Hc in Hs, Fc.
  assert (Hl : (Z.land (P2IN io) LIMIT_EN =? 0) = false /\
               u8 (get_limit_addr io + 1) = f).
  { unfold limit_event in Hev.
    destruct (Z.land (P2IN io) LIMIT_EN =? 0); [discriminate|].
    inversion Hev. split; reflexivity. }
  destruct Hl as (Hen & Hf).
  destruct (limit_frame (get_limit_addr io) m) as (Ls & Lc & Lk & Ld & Lr).
  rewrite Hf in Lc.
  assert (Hp : p = (if negb (Z.land (P1IN io) TOWER_EN =? 0)
                    then handle_tower_button (get_tower_addr io) else skip)
                     ((if negb (Z.land (P2IN io) ELEV_EN =? 0)
                       then handle_elev_button (get_elev_addr io) else skip)
                        (handle_limit_switch (get_limit_addr io) m))).
  { unfold p, poll_sensors, seq. rewrite Hen. reflexivity. }
  split; [exact Hp|]. split; [exact Lc|]. split; [exact Hc|].
  split; [exact Fc|]. split; [exact Hs|].
  split; [|split; [|split]].
  - (* a call accepted in this interrupt *)
    intros addr floor dir HI Ht Hb. rewrite Hp.
    unfold tower_event in Ht.
    destruct (negb (Z.land (P1IN io) TOWER_EN =? 0)); [|discriminate].
    inversion Ht as [Ha]. rewrite Ha.
    set (q := (if negb (Z.land (P2IN io) ELEV_EN =? 0)
               then handle_elev_button (get_elev_addr io) else skip)
                (handle_limit_switch (get_limit_addr io) m)).
    assert (Hq : state q = Idle /\ current_floor q = f).
    { unfold q. destruct (negb (Z.land (P2IN io) ELEV_EN =? 0)); unfold skip.
      - rewrite elev_state, Ls, HI.
        rewrite (proj1 (proj2 (elev_frame _ _))). split; [reflexivity|exact Lc].
      - rewrite Ls. split; [exact HI|exact Lc]. }
    destruct Hq as (Hq1 & Hq2).
    rewrite (tower_idle_state addr floor dir q Hq1 Hb) by (rewrite Hq2; exact Hrange).
    rewrite Hq2. reflexivity.
  - (* a selection made in this interrupt *)
    intros g HW Hg. rewrite Hp.
    unfold elev_event in Hg.
    destruct (negb (Z.land (P2IN io) ELEV_EN =? 0)); [|discriminate].
    inversion Hg as [Hg']. clear Hg.
    set (q := handle_elev_button (get_elev_addr io)
                (handle_limit_switch (get_limit_addr io) m)).
    assert (Hq : state q = selection_state (dest_direction m) f
                             (u8 (get_elev_addr io + 1))).
    { unfold q. rewrite elev_state, Ls, HW, Lr, Lc. reflexivity. }
    assert (Hn : state q <> Idle).
    { rewrite Hq. unfold selection_state. split_ifs; discriminate. }
    destruct (negb (Z.land (P1IN io) TOWER_EN =? 0)); unfold skip.
    + rewrite tower_not_idle by exact Hn. exact Hq.
    + exact Hq.
  - (* arriving at the called floor *)
    intros Hmv Hk.
    assert (HI : state m <> Idle) by (intros E; rewrite E in Hmv; discriminate).
    assert (HW : state m <> AwaitingSelection)
      by (intros E; rewrite E in Hmv; discriminate).
    pose proof (poll_state_frozen io m HI HW) as Hst.
    destruct (poll_called_floor io m HI) as (Hpk & _).
    fold p in Hst, Hpk.
    assert (Es : state m' = AwaitingSelection).
    { rewrite Hs, Hst, Hpk, Hk. unfold next_state.
      destruct (state m); try discriminate Hmv; rewrite Z.eqb_refl; reflexivity. }
    split; [exact Es|]. unfold m'. rewrite tick_intent. fold m'. rewrite Es.
    reflexivity.
  - (* arriving at the destination *)
    intros Hmv He Hd.
    assert (HI : state m <> Idle) by (intros E; rewrite E in Hmv; discriminate).
    assert (HW : state m <> AwaitingSelection)
      by (intros E; rewrite E in Hmv; discriminate).
    pose proof (poll_state_frozen io m HI HW) as Hst.
    pose proof (poll_destination io m) as Hpd. rewrite He in Hpd.
    fold p in Hst, Hpd.
    assert (Es : state m' = Idle).
    { rewrite Hs, Hst, Hpd, Hd. unfold next_state.
      destruct (state m); try discriminate Hmv; rewrite Z.eqb_refl; reflexivity. }
    split; [exact Es|]. unfold m'. rewrite tick_intent. fold m'. rewrite Es.
    reflexivity.
Qed.

Lemma C7_position_first_witness :
  current_floor m_going_up_to_call3 = 2 /\
  current_floor (WDT_interval_handler io_floor3 m_going_up_to_call3) = 3 /\
  state (WDT_interval_handler io_floor3 m_going_up_to_call3) = AwaitingSelection /\
  motor_intent (WDT_interval_handler io_floor3 m_going_up_to_call3) = Some Hold.
Proof.
  destruct (C7_position_first io_floor3 m_going_up_to_call3 3 eq_refl)
    as (_ & _ & _ & H4 & _ & _ & _ & H8 & _).
  destruct (H8 eq_refl eq_refl) as (H81 & H82).
  repeat split; assumption.
Defined.

(** ** C8: ticks without events in Idle and AwaitingSelection *)

Lemma quiet_tick_hold (io : Ports) (m : Machine) :
  quiet io ->
  state m = Idle \/ state m = AwaitingSelection ->
  WDT_interval_handler io m = stop_motor m.
Proof.
  intros Hq Hs. unfold WDT_interval_handler, seq.
  rewrite (poll_quiet io m Hq). unfold handle_system_state.
  destruct Hs as [-> | ->]; reflexivity.
Qed.

(** C8: starting in Idle or AwaitingSelection, after any number of
    interrupts without events the state, the stored call (floor and
    direction), the stored destination and the current floor are what
    they were, and after each of these interrupts the motor is held. *)
Theorem C8_hold_idempotent (ios : list Ports) (m : Machine) :
  Forall quiet ios ->
  state m = Idle \/ state m = AwaitingSelection ->
  state (run ios m) = state m /\
  called_floor (run ios m) = called_floor m /\
  dest_direction (run ios m) = dest_direction m /\
  destination (run ios m) = destination m /\
  current_floor (run ios m) = current_floor m /\
  length (run_trace ios m) = length ios /\
  Forall (fun m' => motor_intent m' = Some Hold) (run_trace ios m).
Proof.
  intros Hq. revert m.
  induction Hq as [|io rest Hio _ IH]; intros m Hs; cbn [run run_trace length].
  - repeat split. constructor.
  - rewrite (quiet_tick_hold io m Hio Hs).
    assert (Hs' : state (stop_motor m) = Idle \/
                  state (stop_motor m) = AwaitingSelection) by exact Hs.
    destruct (IH (stop_motor m) Hs') as (I1 & I2 & I3 & I4 & I5 & I6 & I7).
    repeat split; try assumption.
    + rewrite I6. reflexivity.
    + constructor; [apply motor_intent_stop_motor | exact I7].
Qed.

Lemma C8_hold_idempotent_witness :
  state (run [io_none; io_none; io_none] m_waiting_floor3_up) = AwaitingSelection /\
  Forall (fun m' => motor_intent m' = Some Hold)
         (run_trace [io_none; io_none; io_none] m_waiting_floor3_up).
Proof.
  destruct (C8_hold_idempotent [io_none; io_none; io_none] m_waiting_floor3_up)
    as (H1 & _ & _ & _ & _ & _ & H7).
  - repeat constructor.
  - right. reflexivity.
  - split; [exact H1 | exact H7].
Defined.

(** ** C9: convergence under a walk of position readings *)

Lemma moving_tick (io : Ports) (m : Machine) (f : Z) :
  moving (state m) = true ->
  reports f io ->
  current_floor (WDT_interval_handler io m) = f /\
  called_floor (WDT_interval_handler io m) = called_floor m /\
  destination (WDT_interval_handler io m) = destination m /\
  state (WDT_interval_handler io m)
  = if target m =? f then arrival_state (state m) else state m.
Proof.
  intros Hmv (Hl & He).
  assert (HI : state m <> Idle) by (intros E; rewrite E in Hmv; discriminate).
  assert (HW : state m <> AwaitingSelection)
    by (intros E; rewrite E in Hmv; discriminate).
  pose proof (poll_state_frozen io m HI HW) as Hst.
  destruct (poll_called_floor io m HI) as (Hk & _).
  pose proof (poll_destination io m) as Hd. rewrite He in Hd.
  pose proof (poll_current_floor io m) as Hc. rewrite Hl in Hc.
  destruct (tick_frame io m) as (Fc & Fk & Fd & _).
  rewrite Fc, Fk, Fd, tick_state, Hst, Hk, Hd, Hc.
  repeat split. unfold next_state, target, arrival_state.
  destruct (state m); try discriminate Hmv; reflexivity.
Qed.

Lemma walk_converges (n : nat) :
  forall (m : Machine) (ios : list Ports),
    moving (state m) = true ->
    Z.abs (target m - current_floor m) = Z.of_nat (S n) ->
    Forall2 reports (walk (S n) (current_floor m) (target m)) ios ->
    state (run ios m) = arrival_state (state m) /\
    (forall k, (k <= n)%nat -> state (run (firstn k ios) m) = state m).
Proof.
  induction n as [|n IH]; intros m ios Hmv Hd Hw.
  - cbn [walk] in Hw. inversion Hw as [|f io l l' Hr Hnil]; subst.
    inversion Hnil; subst. cbn [run].
    destruct (moving_tick io m _ Hmv Hr) as (_ & _ & _ & Hs).
    split.
    + rewrite Hs.
      replace (target m =? _) with true; [reflexivity|].
      symmetry. apply Z.eqb_eq.
      destruct (Z.ltb_spec (current_floor m) (target m)); lia.
    + intros k Hk. replace k with O by lia. reflexivity.
  - cbn [walk] in Hw. inversion Hw as [|f io l rest Hr Hrest]; subst.
    set (next := if current_floor m <? target m
                 then current_floor m + 1 else current_floor m - 1) in *.
    destruct (moving_tick io m _ Hmv Hr) as (Hc & Hk & Hde & Hs).
    assert (Hne : (target m =? next) = false).
    { apply Z.eqb_neq. unfold next.
      destruct (Z.ltb_spec (current_floor m) (target m)); lia. }
    rewrite Hne in Hs.
    set (m1 := WDT_interval_handler io m) in *.
    assert (Ht : target m1 = target m)
      by (unfold target; rewrite Hs, Hk, Hde; reflexivity).
    assert (Hmv1 : moving (state m1) = true) by (rewrite Hs; exact Hmv).
    assert (Hd1 : Z.abs (target m1 - current_floor m1) = Z.of_nat (S n)).
    { rewrite Ht, Hc. unfold next.
      destruct (Z.ltb_spec (current_floor m) (target m)); lia. }
    assert (Hw1 : Forall2 reports (walk (S n) (current_floor m1) (target m1)) rest)
      by (rewrite Ht, Hc; exact Hrest).
    destruct (IH m1 rest Hmv1 Hd1 Hw1) as (I1 & I2).
    cbn [run]. fold m1. split.
    + rewrite I1, Hs. reflexivity.
    + intros k Hk'. destruct k as [|k]; [reflexivity|].
      cbn [firstn run]. fold m1. rewrite I2 by lia. exact Hs.
Qed.

Lemma floors_ok_off_target (m : Machine) :
  floors_ok m -> moving (state m) = true -> target m <> current_floor m.
Proof.
  intros (_ & _ & H3 & H4) Hmv. unfold target.
  destruct (state m); try discriminate Hmv; cbn [moving_to_call] in *.
  all: first [apply H3; reflexivity | apply H4; reflexivity].
Qed.

(** C9: from a moving state whose target floor is not the current
    floor (as in every moving state the program reaches between
    interrupts, [floors_ok_off_target]), let the interrupts each carry
    the position reading of the next floor on the way to the target and
    no cabin selection.  Then there are as many interrupts as floors
    between the current floor and the target, the machine is in
    AwaitingSelection (moving to a call) or Idle (moving to a
    destination) after the last of them, and it is still in its moving
    state after each of the earlier ones. *)
Theorem C9_convergence (m : Machine) (ios : list Ports) :
  moving (state m) = true ->
  target m <> current_floor m ->
  let d := floor_distance (current_floor m) (target m) in
  Forall2 reports (walk d (current_floor m) (target m)) ios ->
  length ios = d /\
  state (run ios m) = arrival_state (state m) /\
  (forall k, (k < d)%nat -> state (run (firstn k ios) m) = state m) /\
  (forall k, (k < d)%nat -> state (run (firstn k ios) m) <> arrival_state (state m)).
Proof.
  intros Hmv Hne d Hw.
  assert (Hlen : length ios = d).
  { apply Forall2_length in Hw. rewrite <- Hw.
    generalize (current_floor m). generalize d. clear.
    induction d as [|d IH]; intros c; cbn [walk length]; [reflexivity|].
    rewrite IH. reflexivity. }
  destruct d as [|n] eqn:Ed.
  - exfalso. unfold d, floor_distance in Ed. lia.
  - assert (Hd : Z.abs (target m - current_floor m) = Z.of_nat (S n)).
    { unfold d, floor_distance in Ed. lia. }
    destruct (walk_converges n m ios Hmv Hd Hw) as (H1 & H2).
    split; [exact Hlen|]. split; [exact H1|]. split.
    + intros k Hk. apply H2. lia.
    + intros k Hk. rewrite H2 by lia. unfold arrival_state.
      destruct (state m); try discriminate Hmv; discriminate.
Qed.

Lemma C9_convergence_witness :
  state (run [io_floor3; io_floor4] m_going_up_to_call4) = AwaitingSelection /\
  state (run [io_floor3] m_going_up_to_call4) = MovingToCallUp.
Proof.
  destruct (C9_convergence m_going_up_to_call4 [io_floor3; io_floor4])
    as (_ & H2 & H3 & _).
  - reflexivity.
  - vm_compute. discriminate.
  - vm_compute. repeat constructor.
  - split; [exact H2|]. apply (H3 1%nat). vm_compute. lia.
Defined.

(** ** C10: the selection handler always stores the destination *)

(** C10: in every state, [handle_elev_button] stores the selected floor
    (button address plus one) as the destination, and so does every
    interrupt that carries a selection; outside AwaitingSelection this
    is all the handler does.  In MovingToDestinationUp and
    MovingToDestinationDown the state is kept, and the next interrupt
    compares the current floor with the new destination: with no event,
    it ends in Idle exactly when the current floor is the selected
    floor. *)
Theorem C10_selection_retargets (addr : Z) (m : Machine) :
  let f := u8 (addr + 1) in
  let m1 := handle_elev_button addr m in
  destination m1 = f /\
  (forall io g, elev_event io = Some g ->
                destination (WDT_interval_handler io m) = g) /\
  (state m <> AwaitingSelection -> m1 = set_destination f m) /\
  (moving_to_destination (state m) = true ->
   state m1 = state m /\
   forall io, quiet io ->
     state (WDT_interval_handler io m1)
     = if f =? current_floor m then Idle else state m).
Proof.
  intros f m1. split; [apply (proj1 (elev_frame addr m))|].
  split; [|split].
  - intros io g Hg. destruct (tick_frame io m) as (_ & _ & Fd & _).
    rewrite Fd, poll_destination, Hg. reflexivity.
  - intros H. apply elev_outside_selection, H.
  - intros Hmv.
    assert (HW : state m <> AwaitingSelection)
      by (intros E; rewrite E in Hmv; discriminate).
    assert (E1 : m1 = set_destination f m) by (apply elev_outside_selection, HW).
    split; [rewrite E1; reflexivity|].
    intros io Hq. rewrite tick_state, (poll_quiet io m1 Hq), E1.
    cbn [state current_floor called_floor destination set_destination].
    unfold next_state. destruct (state m); try discriminate Hmv; reflexivity.
Qed.

Lemma C10_selection_retargets_witness :
  destination (handle_elev_button 0 m_going_up_to_3) = 1 /\
  state (handle_elev_button 0 m_going_up_to_3) = MovingToDestinationUp /\
  state (WDT_interval_handler io_none (handle_elev_button 0 m_going_up_to_3))
    = MovingToDestinationUp.
Proof.
  destruct (C10_selection_retargets 0 m_going_up_to_3) as (H1 & _ & _ & H4).
  destruct (H4 eq_refl) as (H5 & H6).
  split; [exact H1|]. split; [exact H5|].
  apply (H6 io_none). repeat split.
Defined.

(** * Further properties of the program *)

(** ** Bits of the 8-bit registers *)

Lemma u8_testbit_high (z n : Z) : 8 <= n -> Z.testbit (u8 z) n = false.
Proof.
  intros Hn. unfold u8. change 256 with (2 ^ 8).
  apply Z.mod_pow2_bits_high. lia.
Qed.

Lemma u8_range (z : Z) : 0 <= u8 z < 256.
Proof. unfold u8. apply Z.mod_pos_bound. lia. Qed.

(** Rewrites the bits of a chain of [bis]/[bic] at a literal position
    and evaluates the bits of the literal masks. *)
Ltac mask_bits :=
  repeat ((rewrite bis_testbit by lia) || (rewrite bic_testbit by lia));
  unfold SEVENSEG_A0, SEVENSEG_A1, SEVENSEG_A2, PWM, UPCTL, DNCTL,
    TOWER_EN, TOWER_A0, TOWER_A1, TOWER_A2, LIMIT_EN, LIMIT_A0, LIMIT_A1,
    ELEV_EN, ELEV_A0, ELEV_A1;
  repeat match goal with
         | |- context [Z.testbit (Zpos ?c) (Zpos ?k)] =>
             let v := eval vm_compute in (Z.testbit (Zpos c) (Zpos k)) in
             change (Z.testbit (Zpos c) (Zpos k)) with v
         | |- context [Z.testbit (Zpos ?c) 0] =>
             let v := eval vm_compute in (Z.testbit (Zpos c) 0) in
             change (Z.testbit (Zpos c) 0) with v
         end;
  cbn [negb];
  rewrite ?orb_true_r, ?orb_false_r, ?andb_true_r, ?andb_false_r.

(** Splits a bit position below 8 into its eight values. *)
Ltac byte_positions n H :=
  let E := fresh "E" in
  assert (E : n = 0 \/ n = 1 \/ n = 2 \/ n = 3 \/ n = 4 \/ n = 5 \/ n = 6 \/ n = 7)
    by lia;
  clear H;
  destruct E as [E|[E|[E|[E|[E|[E|[E|E]]]]]]]; subst n.

(** ** The display *)

Lemma P1OUT_update_display (floor : Z) (m : Machine) :
  P1OUT (update_display floor m)
  = if floor =? 1 then bic (bic (bis (P1OUT m) SEVENSEG_A0) SEVENSEG_A1) SEVENSEG_A2
    else if floor =? 2 then bic (bis (bic (P1OUT m) SEVENSEG_A0) SEVENSEG_A1) SEVENSEG_A2
    else if floor =? 3 then bic (bis (bis (P1OUT m) SEVENSEG_A0) SEVENSEG_A1) SEVENSEG_A2
    else if floor =? 4 then bis (bic (bic (P1OUT m) SEVENSEG_A0) SEVENSEG_A1) SEVENSEG_A2
    else P1OUT m.
Proof. unfold update_display. split_ifs; reflexivity. Qed.

Lemma display_value_update (floor : Z) (m : Machine) :
  1 <= floor <= 4 -> display_value (P1OUT (update_display floor m)) = floor.
Proof.
  intros H. rewrite P1OUT_update_display. unfold display_value.
  destruct (Z.eqb_spec floor 1); [subst; mask_bits; reflexivity|].
  destruct (Z.eqb_spec floor 2); [subst; mask_bits; reflexivity|].
  destruct (Z.eqb_spec floor 3); [subst; mask_bits; reflexivity|].
  destruct (Z.eqb_spec floor 4); [subst; mask_bits; reflexivity|].
  lia.
Qed.

Lemma update_display_other_bits (floor : Z) (m : Machine) (n : Z) :
  0 <= n < 8 -> n <> 0 -> n <> 1 -> n <> 3 ->
  Z.testbit (P1OUT (update_display floor m)) n = Z.testbit (P1OUT m) n.
Proof.
  intros Hn H0 H1 H3. rewrite P1OUT_update_display.
  split_ifs; try reflexivity;
    byte_positions n Hn; try contradiction; mask_bits; reflexivity.
Qed.

(** X1: [update_display] writes the floor number in binary on the three
    decoder lines when the floor is one of 1..4 and does nothing for
    any other value; in both cases the five other bits of port 1 (the
    PWM line and the tower inputs) keep their values. *)
Theorem X1_display_encodes_floor (floor : Z) (m : Machine) :
  (if serviceable floor
   then display_value (P1OUT (update_display floor m)) = floor
   else update_display floor m = m) /\
  (forall n, 0 <= n < 8 -> n <> 0 -> n <> 1 -> n <> 3 ->
             Z.testbit (P1OUT (update_display floor m)) n
             = Z.testbit (P1OUT m) n) /\
  update_display floor m = set_P1OUT (P1OUT (update_display floor m)) m.
Proof.
  split; [|split].
  - unfold serviceable.
    destruct (Z.leb_spec 1 floor); destruct (Z.leb_spec floor 4); cbn [andb].
    + apply display_value_update. lia.
    + unfold update_display.
      repeat match goal with
             | |- context [?a =? ?b] => destruct (Z.eqb_spec a b); try lia
             end. reflexivity.
    + unfold update_display.
      repeat match goal with
             | |- context [?a =? ?b] => destruct (Z.eqb_spec a b); try lia
             end. reflexivity.
    + lia.
  - intros n Hn H0 H1 H3. apply update_display_other_bits; assumption.
  - apply update_display_frame.
Qed.

(** ** What one interrupt writes to port 1 *)

Lemma limit_P1OUT (addr : Z) (m : Machine) :
  P1OUT (handle_limit_switch addr m) = P1OUT (update_display (u8 (addr + 1)) m).
Proof.
  unfold handle_limit_switch, seq. cbn [current_floor set_current_floor].
  destruct ((u8 (addr + 1) =? 1) || (u8 (addr + 1) =? 4));
    rewrite !P1OUT_update_display; reflexivity.
Qed.

Lemma tick_P1OUT (io : Ports) (m : Machine) :
  P1OUT (WDT_interval_handler io m)
  = match limit_event io with
    | Some f => P1OUT (update_display f m)
    | None => P1OUT m
    end.
Proof.
  unfold WDT_interval_handler, seq.
  rewrite (proj2 (proj2 (proj2 (proj2 (switch_frame _))))).
  unfold limit_event, poll_sensors, seq, skip.
  destruct (negb (Z.land (P2IN io) LIMIT_EN =? 0));
    destruct (negb (Z.land (P2IN io) ELEV_EN =? 0));
    destruct (negb (Z.land (P1IN io) TOWER_EN =? 0));
    rewrite ?(proj2 (proj2 (tower_frame _ _)));
    rewrite ?(proj1 (proj2 (proj2 (proj2 (proj2 (elev_frame _ _))))));
    rewrite ?limit_P1OUT; reflexivity.
Qed.

(** X2: in every state the program reaches from power-on, once a
    position reading has been taken (the stored floor is no longer the
    power-on value 0) the decoder lines of port 1 carry the stored
    current floor: the display never shows another floor than the one
    the state machine works with. *)
Theorem X2_display_shows_current_floor (m : Machine) :
  reachable m ->
  current_floor m <> 0 ->
  display_value (P1OUT m) = current_floor m.
Proof.
  induction 1 as [p1 p2 ta | io m Hr IH]; intros Hc.
  - cbn [current_floor power_on] in Hc. contradiction.
  - destruct (tick_frame io m) as (Fc & _).
    rewrite Fc, poll_current_floor in *. rewrite tick_P1OUT.
    destruct (limit_event io) as [f|] eqn:E.
    + apply display_value_update. apply (limit_event_range io f E).
    + apply IH, Hc.
Qed.

Lemma X2_display_shows_current_floor_witness :
  current_floor m_idle_floor1 = 1 /\ display_value (P1OUT m_idle_floor1) = 1.
Proof.
  split; [reflexivity|].
  apply (X2_display_shows_current_floor m_idle_floor1).
  - apply reachable_tick, reachable_power_on.
  - vm_compute. discriminate.
Defined.

(** ** What one interrupt writes to port 2 and to the PWM register *)

Lemma motor_low_bits (m : Machine) (n : Z) :
  0 <= n < 6 ->
  Z.testbit (P2OUT (stop_motor m)) n = Z.testbit (P2OUT m) n /\
  Z.testbit (P2OUT (go_up m)) n = Z.testbit (P2OUT m) n /\
  Z.testbit (P2OUT (go_down m)) n = Z.testbit (P2OUT m) n.
Proof.
  intros Hn. rewrite P2OUT_stop_motor, P2OUT_go_up, P2OUT_go_down.
  assert (E : n = 0 \/ n = 1 \/ n = 2 \/ n = 3 \/ n = 4 \/ n = 5) by lia.
  destruct E as [E|[E|[E|[E|[E|E]]]]]; subst n;
    repeat split; mask_bits; reflexivity.
Qed.

(** What a handler may have done to the motor: nothing, or the effect
    of one of the three motor functions on the registers it found. *)
Lemma tower_motor_cases (addr : Z) (m : Machine) :
  (P2OUT (handle_tower_button addr m) = P2OUT m /\
   TA0CCR1 (handle_tower_button addr m) = TA0CCR1 m) \/
  (P2OUT (handle_tower_button addr m) = P2OUT (go_up m) /\
   TA0CCR1 (handle_tower_button addr m) = UP_DUTY_CYCLE) \/
  (P2OUT (handle_tower_button addr m) = P2OUT (go_down m) /\
   TA0CCR1 (handle_tower_button addr m) = DN_DUTY_CYCLE).
Proof.
  unfold handle_tower_button.
  tower_addr_cases addr; unfold tower_case_mid, seq, skip; split_ifs;
    first [ left; split; reflexivity
          | right; left; split; reflexivity
          | right; right; split; reflexivity ].
Qed.

Lemma switch_motor_cases (m : Machine) :
  (P2OUT (handle_system_state m) = P2OUT (stop_motor m) /\
   TA0CCR1 (handle_system_state m) = TA0CCR1 m /\
   intent_of_state (state (handle_system_state m)) = Hold) \/
  (P2OUT (handle_system_state m) = P2OUT (go_up m) /\
   TA0CCR1 (handle_system_state m) = UP_DUTY_CYCLE /\
   intent_of_state (state (handle_system_state m)) = Up) \/
  (P2OUT (handle_system_state m) = P2OUT (go_down m) /\
   TA0CCR1 (handle_system_state m) = DN_DUTY_CYCLE /\
   intent_of_state (state (handle_system_state m)) = Down).
Proof.
  unfold handle_system_state.
  destruct (state m) eqn:E; split_ifs; unfold seq;
    cbn [state set_state intent_of_state];
    change (state (go_up m)) with (state m);
    change (state (go_down m)) with (state m);
    change (state (stop_motor m)) with (state m);
    rewrite ?E; cbn [intent_of_state];
    first [ left; repeat split; reflexivity
          | right; left; repeat split; reflexivity
          | right; right; repeat split; reflexivity ].
Qed.

Lemma limit_TA0CCR1 (addr : Z) (m : Machine) :
  TA0CCR1 (handle_limit_switch addr m) = TA0CCR1 m.
Proof.
  unfold handle_limit_switch, seq. rewrite update_display_frame.
  cbn [TA0CCR1 set_P1OUT]. split_ifs; reflexivity.
Qed.

Lemma poll_low_bits (io : Ports) (m : Machine) (n : Z) :
  0 <= n < 6 ->
  Z.testbit (P2OUT (poll_sensors io m)) n = Z.testbit (P2OUT m) n.
Proof.
  intros Hn. unfold poll_sensors, seq, skip.
  set (a := if negb (Z.land (P2IN io) LIMIT_EN =? 0)
            then handle_limit_switch (get_limit_addr io) m else m).
  assert (Ha : Z.testbit (P2OUT a) n = Z.testbit (P2OUT m) n).
  { unfold a. destruct (negb (Z.land (P2IN io) LIMIT_EN =? 0)); [|reflexivity].
    rewrite limit_P2OUT. split_ifs; [|reflexivity].
    apply (motor_low_bits m n Hn). }
  set (b := if negb (Z.land (P2IN io) ELEV_EN =? 0)
            then handle_elev_button (get_elev_addr io) a else a).
  assert (Hb : P2OUT b = P2OUT a).
  { unfold b. destruct (negb (Z.land (P2IN io) ELEV_EN =? 0)); [|reflexivity].
    apply (elev_frame (get_elev_addr io) a). }
  assert (Hgoal : Z.testbit
                    (P2OUT (if negb (Z.land (P1IN io) TOWER_EN =? 0)
                            then handle_tower_button (get_tower_addr io) b else b)) n
                  = Z.testbit (P2OUT m) n).
  { destruct (negb (Z.land (P1IN io) TOWER_EN =? 0)).
    - destruct (tower_motor_cases (get_tower_addr io) b) as [(E & _)|[(E & _)|(E & _)]];
        rewrite E, ?(proj1 (proj2 (motor_low_bits b n Hn))),
          ?(proj2 (proj2 (motor_low_bits b n Hn))), Hb; exact Ha.
    - rewrite Hb. exact Ha. }
  unfold b, a in Hgoal.
  destruct (negb (Z.land (P2IN io) LIMIT_EN =? 0));
    destruct (negb (Z.land (P2IN io) ELEV_EN =? 0));
    destruct (negb (Z.land (P1IN io) TOWER_EN =? 0)); exact Hgoal.
Qed.

Lemma poll_TA0CCR1 (io : Ports) (m : Machine) :
  TA0CCR1 (poll_sensors io m) = TA0CCR1 m \/
  TA0CCR1 (poll_sensors io m) = UP_DUTY_CYCLE \/
  TA0CCR1 (poll_sensors io m) = DN_DUTY_CYCLE.
Proof.
  unfold poll_sensors, seq, skip.
  destruct (negb (Z.land (P2IN io) LIMIT_EN =? 0));
    destruct (negb (Z.land (P2IN io) ELEV_EN =? 0));
    destruct (negb (Z.land (P1IN io) TOWER_EN =? 0));
    try match goal with
        | |- context [handle_tower_button ?a ?x] =>
            destruct (tower_motor_cases a x) as [(_ & E)|[(_ & E)|(_ & E)]];
            rewrite E; auto
        end;
    rewrite ?(proj2 (proj2 (proj2 (proj2 (proj2 (proj2 (elev_frame _ _)))))));
    rewrite ?limit_TA0CCR1; auto.
Qed.

(** X3: one interrupt writes nothing but the two direction lines of
    port 2 and the three decoder lines of port 1: bits 0..5 of P2OUT
    and bits 2, 4, 5, 6, 7 of P1OUT are after the interrupt what they
    were before it, and P2OUT is left as an 8-bit value. *)
Theorem X3_interrupt_pin_discipline (io : Ports) (m : Machine) (n : Z) :
  0 <= n < 8 ->
  (n < 6 -> Z.testbit (P2OUT (WDT_interval_handler io m)) n
            = Z.testbit (P2OUT m) n) /\
  (n <> 0 -> n <> 1 -> n <> 3 ->
   Z.testbit (P1OUT (WDT_interval_handler io m)) n = Z.testbit (P1OUT m) n) /\
  0 <= P2OUT (WDT_interval_handler io m) < 256.
Proof.
  intros Hn. split; [|split].
  - intros H6. assert (Hn6 : 0 <= n < 6) by lia.
    unfold WDT_interval_handler, seq.
    destruct (switch_motor_cases (poll_sensors io m))
      as [(E & _)|[(E & _)|(E & _)]]; rewrite E;
      rewrite ?(proj1 (motor_low_bits _ n Hn6)),
        ?(proj1 (proj2 (motor_low_bits _ n Hn6))),
        ?(proj2 (proj2 (motor_low_bits _ n Hn6)));
      apply poll_low_bits; exact Hn6.
  - intros H0 H1 H3. rewrite tick_P1OUT.
    destruct (limit_event io); [|reflexivity].
    apply update_display_other_bits; assumption.
  - unfold WDT_interval_handler, seq.
    destruct (switch_motor_cases (poll_sensors io m))
      as [(E & _)|[(E & _)|(E & _)]]; rewrite E;
      rewrite ?P2OUT_stop_motor, ?P2OUT_go_up, ?P2OUT_go_down;
      unfold bis, bic; apply u8_range.
Qed.

Lemma X3_interrupt_pin_discipline_witness :
  Z.testbit (P2OUT (WDT_interval_handler io_floor1_call3 m_idle_floor1)) 3
  = Z.testbit (P2OUT m_idle_floor1) 3.
Proof.
  destruct (X3_interrupt_pin_discipline io_floor1_call3 m_idle_floor1 3) as (H & _).
  - lia.
  - apply H. lia.
Defined.

(** X4: after every interrupt, whatever the inputs and the machine it
    started from, the direction lines encode a definite motor command,
    and which one is fixed by the state the interrupt ends in: held in
    Idle and AwaitingSelection, up in the two upward moving states,
    down in the two downward moving states and in Initializing.  The
    lines are never left both low. *)
Theorem X4_intent_follows_state (io : Ports) (m : Machine) :
  let m' := WDT_interval_handler io m in
  motor_intent m' <> None /\
  (motor_intent m' = Some Hold <->
   state m' = Idle \/ state m' = AwaitingSelection) /\
  (motor_intent m' = Some Up <->
   state m' = MovingToCallUp \/ state m' = MovingToDestinationUp) /\
  (motor_intent m' = Some Down <->
   state m' = Initializing \/ state m' = MovingToCallDown \/
   state m' = MovingToDestinationDown).
Proof.
  intros m'. unfold m'. rewrite tick_intent.
  destruct (state (WDT_interval_handler io m)); cbn [intent_of_state];
    repeat split; intros; try discriminate; auto;
    repeat match goal with
           | H : _ \/ _ |- _ => destruct H
           end; try discriminate; try reflexivity.
Qed.

(** X5: the PWM compare register follows the direction of travel: an
    interrupt that ends with the motor commanded up leaves TA0CCR1 at
    UP_DUTY_CYCLE, one that ends with it commanded down at
    DN_DUTY_CYCLE, and no interrupt writes any other value to it. *)
Theorem X5_duty_cycle_follows_direction (io : Ports) (m : Machine) :
  let m' := WDT_interval_handler io m in
  (motor_intent m' = Some Up -> TA0CCR1 m' = UP_DUTY_CYCLE) /\
  (motor_intent m' = Some Down -> TA0CCR1 m' = DN_DUTY_CYCLE) /\
  (TA0CCR1 m' = TA0CCR1 m \/ TA0CCR1 m' = UP_DUTY_CYCLE \/
   TA0CCR1 m' = DN_DUTY_CYCLE).
Proof.
  intros m'. unfold m'. rewrite tick_intent.
  unfold WDT_interval_handler, seq.
  destruct (switch_motor_cases (poll_sensors io m))
    as [(_ & E & I)|[(_ & E & I)|(_ & E & I)]]; rewrite E, I;
    repeat split; intros; try discriminate; auto.
  apply poll_TA0CCR1.
Qed.

Lemma X5_duty_cycle_follows_direction_witness :
  TA0CCR1 (WDT_interval_handler io_floor1_call3 m_idle_floor1) = 400.
Proof.
  destruct (X5_duty_cycle_follows_direction io_floor1_call3 m_idle_floor1)
    as (H & _).
  apply H. vm_compute. reflexivity.
Defined.

(** ** Decoding of the input pins *)

Lemma land_bit_zero (p k : Z) :
  0 <= k -> (Z.land p (2 ^ k) =? 0) = negb (Z.testbit p k).
Proof.
  intros Hk. destruct (Z.testbit p k) eqn:E; cbn [negb].
  - apply Z.eqb_neq. intros H.
    assert (F : Z.testbit (Z.land p (2 ^ k)) k = false)
      by (rewrite H; apply Z.bits_0).
    rewrite Z.land_spec, E, Z.pow2_bits_true in F by lia. discriminate.
  - apply Z.eqb_eq. apply Z.bits_inj'. intros n Hn.
    rewrite Z.land_spec, Z.bits_0, Z.pow2_bits_eqb by lia.
    destruct (Z.eqb_spec k n); [subst; rewrite E; reflexivity|].
    apply andb_false_r.
Qed.

Lemma field_low_bit (p k : Z) :
  0 <= k -> Z.shiftr p k mod 2 = Z.b2z (Z.testbit p k).
Proof.
  intros Hk. rewrite <- Z.bit0_mod, Z.shiftr_spec by lia. reflexivity.
Qed.

Lemma field_two_bits (p k : Z) :
  0 <= k ->
  Z.shiftr p k mod 4
  = Z.b2z (Z.testbit p k) + 2 * Z.b2z (Z.testbit p (k + 1)).
Proof.
  intros Hk. change 4 with (2 * 2). rewrite Z.rem_mul_r by lia.
  rewrite field_low_bit by lia.
  replace (Z.shiftr p k / 2) with (Z.shiftr p (k + 1)).
  - rewrite field_low_bit by lia. reflexivity.
  - rewrite <- Z.shiftr_shiftr by lia.
    rewrite (Z.shiftr_div_pow2 _ 1) by lia. reflexivity.
Qed.

Lemma field_three_bits (p k : Z) :
  0 <= k ->
  Z.shiftr p k mod 8
  = Z.b2z (Z.testbit p k) + 2 * Z.b2z (Z.testbit p (k + 1))
    + 4 * Z.b2z (Z.testbit p (k + 2)).
Proof.
  intros Hk. change 8 with (2 * 4). rewrite Z.rem_mul_r by lia.
  rewrite field_low_bit by lia.
  replace (Z.shiftr p k / 2) with (Z.shiftr p (k + 1)).
  - rewrite field_two_bits by lia.
    replace (k + 1 + 1) with (k + 2) by lia. lia.
  - rewrite <- Z.shiftr_shiftr by lia.
    rewrite (Z.shiftr_div_pow2 _ 1) by lia. reflexivity.
Qed.

Lemma masked_field (p mask n k : Z) :
  0 <= n -> 0 <= k -> Z.shiftr mask n = Z.ones k ->
  Z.shiftr (Z.land p mask) n = Z.shiftr p n mod 2 ^ k.
Proof.
  intros Hn Hk Hm. rewrite Z.shiftr_land, Hm, Z.land_ones by assumption.
  reflexivity.
Qed.

Lemma get_limit_addr_bits (io : Ports) :
  get_limit_addr io
  = Z.b2z (Z.testbit (P2IN io) 1) + 2 * Z.b2z (Z.testbit (P2IN io) 2).
Proof.
  unfold get_limit_addr, LIMIT_ADDR_MASK.
  rewrite (masked_field (P2IN io) 6 1 2) by (lia || reflexivity).
  change (2 ^ 2) with 4. rewrite field_two_bits by lia.
  change (1 + 1) with 2. apply u8_small.
  destruct (Z.testbit (P2IN io) 1); destruct (Z.testbit (P2IN io) 2);
    cbn [Z.b2z]; lia.
Qed.

Lemma get_elev_addr_bits (io : Ports) :
  get_elev_addr io
  = Z.b2z (Z.testbit (P2IN io) 4) + 2 * Z.b2z (Z.testbit (P2IN io) 5).
Proof.
  unfold get_elev_addr, ELEV_ADDR_MASK.
  rewrite (masked_field (P2IN io) 48 4 2) by (lia || reflexivity).
  change (2 ^ 2) with 4. rewrite field_two_bits by lia.
  change (4 + 1) with 5. apply u8_small.
  destruct (Z.testbit (P2IN io) 4); destruct (Z.testbit (P2IN io) 5);
    cbn [Z.b2z]; lia.
Qed.

Lemma get_tower_addr_bits (io : Ports) :
  get_tower_addr io
  = Z.b2z (Z.testbit (P1IN io) 5) + 2 * Z.b2z (Z.testbit (P1IN io) 6)
    + 4 * Z.b2z (Z.testbit (P1IN io) 7).
Proof.
  unfold get_tower_addr, TOWER_ADDR_MASK.
  rewrite (masked_field (P1IN io) 224 5 3) by (lia || reflexivity).
  change (2 ^ 3) with 8. rewrite field_three_bits by lia.
  change (5 + 1) with 6. change (5 + 2) with 7. apply u8_small.
  destruct (Z.testbit (P1IN io) 5); destruct (Z.testbit (P1IN io) 6);
    destruct (Z.testbit (P1IN io) 7); cbn [Z.b2z]; lia.
Qed.

(** X6: what the interrupt reads from the pins.  A position reading is
    present exactly when bit 0 of port 2 is high, and its floor is one
    plus the number on bits 1 and 2; a cabin selection is present
    exactly when bit 3 of port 2 is high, and its floor is one plus the
    number on bits 4 and 5; a tower call is present exactly when bit 4
    of port 1 is high, and its button address is the number on bits 5,
    6 and 7.  No other pin has any influence, for any pin values, and
    every floor read this way is one of 1..4. *)
Theorem X6_pin_decoding (io : Ports) :
  limit_event io
  = (if Z.testbit (P2IN io) 0
     then Some (1 + Z.b2z (Z.testbit (P2IN io) 1)
                + 2 * Z.b2z (Z.testbit (P2IN io) 2))
     else None) /\
  elev_event io
  = (if Z.testbit (P2IN io) 3
     then Some (1 + Z.b2z (Z.testbit (P2IN io) 4)
                + 2 * Z.b2z (Z.testbit (P2IN io) 5))
     else None) /\
  tower_event io
  = (if Z.testbit (P1IN io) 4
     then Some (Z.b2z (Z.testbit (P1IN io) 5)
                + 2 * Z.b2z (Z.testbit (P1IN io) 6)
                + 4 * Z.b2z (Z.testbit (P1IN io) 7))
     else None) /\
  (forall f, limit_event io = Some f -> 1 <= f <= 4) /\
  (forall f, elev_event io = Some f -> 1 <= f <= 4) /\
  (forall a, tower_event io = Some a -> 0 <= a <= 7).
Proof.
  split; [|split; [|split; [|split; [|split]]]].
  - unfold limit_event, LIMIT_EN. change 1 with (2 ^ 0) at 1.
    rewrite land_bit_zero, negb_involutive by lia.
    destruct (Z.testbit (P2IN io) 0); [|reflexivity].
    pose proof (get_limit_addr_range io).
    rewrite u8_small, get_limit_addr_bits by lia. f_equal. lia.
  - unfold elev_event, ELEV_EN. change 8 with (2 ^ 3) at 1.
    rewrite land_bit_zero, negb_involutive by lia.
    destruct (Z.testbit (P2IN io) 3); [|reflexivity].
    pose proof (get_elev_addr_range io).
    rewrite u8_small, get_elev_addr_bits by lia. f_equal. lia.
  - unfold tower_event, TOWER_EN. change 16 with (2 ^ 4) at 1.
    rewrite land_bit_zero, negb_involutive by lia.
    destruct (Z.testbit (P1IN io) 4); [|reflexivity].
    rewrite get_tower_addr_bits. reflexivity.
  - apply limit_event_range.
  - apply elev_event_range.
  - unfold tower_event. intros a. destruct (negb _); [|discriminate].
    intros H. inversion H. apply get_tower_addr_range.
Qed.

(** ** The polling prefix, by starting state *)

(** The machine after the limit-switch poll alone. *)
Lemma limit_poll_facts (io : Ports) (m : Machine) :
  let a := (if negb (Z.land (P2IN io) LIMIT_EN =? 0)
            then handle_limit_switch (get_limit_addr io) else skip) m in
  state a = state m /\ current_floor a = floor_seen io m /\
  called_floor a = called_floor m /\ destination a = destination m /\
  dest_direction a = dest_direction m.
Proof.
  unfold floor_seen, limit_event, skip.
  destruct (negb (Z.land (P2IN io) LIMIT_EN =? 0)); cbn zeta.
  - apply limit_frame.
  - repeat split.
Qed.

Lemma poll_split (io : Ports) (m : Machine) :
  poll_sensors io m
  = (if negb (Z.land (P1IN io) TOWER_EN =? 0)
     then handle_tower_button (get_tower_addr io) else skip)
      ((if negb (Z.land (P2IN io) ELEV_EN =? 0)
        then handle_elev_button (get_elev_addr io) else skip)
         ((if negb (Z.land (P2IN io) LIMIT_EN =? 0)
           then handle_limit_switch (get_limit_addr io) else skip) m)).
Proof. reflexivity. Qed.

Lemma poll_awaiting_state (io : Ports) (m : Machine) :
  state m = AwaitingSelection ->
  state (poll_sensors io m)
  = match elev_event io with
    | Some g => selection_state (dest_direction m) (floor_seen io m) g
    | None => AwaitingSelection
    end.
Proof.
  intros HW.
  assert (HI : state m <> Idle) by (rewrite HW; discriminate).
  rewrite (poll_not_idle io m HI).
  destruct (limit_poll_facts io m) as (Ls & Lc & _ & _ & Lr). cbn zeta in *.
  set (a := (if negb (Z.land (P2IN io) LIMIT_EN =? 0)
             then handle_limit_switch (get_limit_addr io) else skip) m) in *.
  unfold elev_event.
  destruct (negb (Z.land (P2IN io) ELEV_EN =? 0)).
  - rewrite elev_state, Ls, HW, Lr, Lc. reflexivity.
  - change (skip a) with a. rewrite Ls. exact HW.
Qed.

Lemma tower_idle_cases (addr : Z) (m : Machine) :
  state m = Idle ->
  let m' := handle_tower_button addr m in
  (tower_button addr = None /\ m' = m) \/
  (tower_button addr <> None /\
   (state m' = AwaitingSelection /\ called_floor m' = current_floor m \/
    moving_to_call (state m') = true /\ called_floor m' <> current_floor m)).
Proof.
  intros HI. cbn zeta. unfold tower_button, handle_tower_button.
  tower_addr_cases addr;
    [right|right|right|right|right|right|left; split; reflexivity];
    (split; [discriminate|]);
    unfold tower_case_mid, seq; rewrite (State_eqb_Idle m HI);
    cbn [current_floor set_called_floor set_dest_direction];
    match goal with
    | |- context [current_floor m =? ?f] =>
        destruct (Z.eqb_spec (current_floor m) f) as [E|E]; cbn [negb]
    end;
    try (left; split; [reflexivity | symmetry; exact E]);
    split_ifs; right; split; try reflexivity;
    intros F; apply E; symmetry; exact F.
Qed.

Lemma poll_idle_cases (io : Ports) (m : Machine) :
  state m = Idle ->
  let p := poll_sensors io m in
  current_floor p = floor_seen io m /\
  (state p = Idle \/
   state p = AwaitingSelection /\ called_floor p = current_floor p \/
   moving_to_call (state p) = true /\ called_floor p <> current_floor p).
Proof.
  intros HI. cbn zeta. split; [apply poll_current_floor|].
  rewrite poll_split.
  destruct (limit_poll_facts io m) as (Ls & Lc & _). cbn zeta in *.
  set (a := (if negb (Z.land (P2IN io) LIMIT_EN =? 0)
             then handle_limit_switch (get_limit_addr io) else skip) m) in *.
  set (q := (if negb (Z.land (P2IN io) ELEV_EN =? 0)
             then handle_elev_button (get_elev_addr io) else skip) a).
  assert (Hq : state q = Idle).
  { unfold q. destruct (negb (Z.land (P2IN io) ELEV_EN =? 0)).
    - rewrite elev_state, Ls, HI. reflexivity.
    - change (skip a) with a. rewrite Ls. exact HI. }
  destruct (negb (Z.land (P1IN io) TOWER_EN =? 0));
    [|change (skip q) with q; left; exact Hq].
  destruct (tower_idle_cases (get_tower_addr io) q Hq) as [(_ & E)|(_ & H)];
    cbn zeta in *.
  - rewrite E. left. exact Hq.
  - rewrite (proj1 (tower_frame _ _)). right. exact H.
Qed.

(** ** Invariants of the running program *)

(** X7: between interrupts, in every state the program reaches from
    power-on: outside Initializing the stored current floor is one of
    1..4; while moving to a call or waiting for a selection the stored
    call floor is one of 1..4 and the call direction is 'u' or 'd';
    while moving to a destination the destination is one of 1..4; and a
    moving state never has its target on the current floor (the
    interrupt that brings them together ends in AwaitingSelection or
    Idle). *)
Theorem X7_floor_variables_in_range (m : Machine) :
  reachable m -> floors_ok m.
Proof. apply reachable_floors_ok. Qed.

Lemma X7_floor_variables_in_range_witness :
  floors_ok m_going_up_to_3.
Proof.
  apply (X7_floor_variables_in_range m_going_up_to_3).
  replace m_going_up_to_3
    with (run [io_floor1; io_floor1_call2up; io_floor2; io_floor2_select3]
              (power_on 0 0 500))
    by (vm_compute; reflexivity).
  apply reachable_run, reachable_power_on.
Defined.

(** X10: the state changes one interrupt can make are those of the
    diagram Initializing -> Idle -> (MovingToCallUp | MovingToCallDown)
    -> AwaitingSelection -> (MovingToDestinationUp |
    MovingToDestinationDown) -> Idle, with Idle -> AwaitingSelection
    for a call at the current floor and every state able to stay where
    it is.  In particular no interrupt returns to Initializing, none
    goes from Idle to a destination state, and a moving state is only
    ever left for its own arrival state. *)
Theorem X10_state_diagram (io : Ports) (m : Machine) :
  allowed_step (state m) (state (WDT_interval_handler io m)) = true.
Proof.
  rewrite tick_state.
  destruct (state m) eqn:E.
  - rewrite poll_state_frozen by (rewrite E; discriminate). rewrite E.
    unfold next_state. split_ifs; reflexivity.
  - destruct (poll_idle_cases io m E) as (_ & [H|[(H & _)|(H & Hne)]]);
      cbn zeta in *.
    + rewrite H. reflexivity.
    + rewrite H. reflexivity.
    + apply Z.eqb_neq in Hne. unfold next_state.
      destruct (state (poll_sensors io m)); try discriminate H;
        rewrite Hne; reflexivity.
  - rewrite poll_state_frozen by (rewrite E; discriminate). rewrite E.
    unfold next_state. split_ifs; reflexivity.
  - rewrite poll_state_frozen by (rewrite E; discriminate). rewrite E.
    unfold next_state. split_ifs; reflexivity.
  - rewrite (poll_awaiting_state io m E), poll_destination, poll_current_floor.
    fold (floor_seen io m).
    destruct (elev_event io) as [g|]; [|reflexivity].
    unfold selection_state, next_state.
    destruct (g =? floor_seen io m) eqn:Eg; [reflexivity|].
    split_ifs; reflexivity.
  - rewrite poll_state_frozen by (rewrite E; discriminate). rewrite E.
    unfold next_state. split_ifs; reflexivity.
  - rewrite poll_state_frozen by (rewrite E; discriminate). rewrite E.
    unfold next_state. split_ifs; reflexivity.
Qed.

(** ** One interrupt, by starting state *)

Lemma frozen_tick (io : Ports) (m : Machine) :
  state m <> Idle -> state m <> AwaitingSelection ->
  let m' := WDT_interval_handler io m in
  state m' = next_state (state m) (floor_seen io m) (called_floor m)
                        (destination (poll_sensors io m)) /\
  current_floor m' = floor_seen io m /\
  called_floor m' = called_floor m /\
  dest_direction m' = dest_direction m.
Proof.
  intros HI HW. cbn zeta.
  destruct (tick_frame io m) as (Fc & Fk & _ & Fr).
  destruct (poll_called_floor io m HI) as (Hk & Hr).
  rewrite tick_state, Fc, Fk, Fr, Hk, Hr, poll_current_floor.
  rewrite (poll_state_frozen io m HI HW). repeat split.
Qed.

(** X8: an interrupt taken in Initializing looks at nothing but the
    floor: if the floor it sees (this interrupt's position reading, or
    else the stored floor) is 1 it ends in Idle with the motor held,
    otherwise it stays in Initializing with the motor commanded down.
    Tower calls in the same interrupt are dropped: the stored call is
    not touched. *)
Theorem X8_homing_step (io : Ports) (m : Machine) :
  state m = Initializing ->
  let m' := WDT_interval_handler io m in
  current_floor m' = floor_seen io m /\
  called_floor m' = called_floor m /\
  dest_direction m' = dest_direction m /\
  (floor_seen io m = 1 -> state m' = Idle /\ motor_intent m' = Some Hold) /\
  (floor_seen io m <> 1 ->
   state m' = Initializing /\ motor_intent m' = Some Down).
Proof.
  intros E. cbn zeta.
  destruct (frozen_tick io m) as (Hs & Hc & Hk & Hr);
    try (rewrite E; discriminate). cbn zeta in *.
  rewrite E in Hs. unfold next_state in Hs.
  split; [exact Hc|]. split; [exact Hk|]. split; [exact Hr|].
  rewrite tick_intent, Hs.
  destruct (Z.eqb_spec (floor_seen io m) 1); split; intros; try contradiction;
    split; reflexivity.
Qed.

Lemma X8_homing_step_witness :
  state (WDT_interval_handler io_floor1 m_initializing) = Idle /\
  state (WDT_interval_handler io_floor2 m_initializing) = Initializing.
Proof.
  destruct (X8_homing_step io_floor1 m_initializing eq_refl) as (_ & _ & _ & H & _).
  destruct (X8_homing_step io_floor2 m_initializing eq_refl) as (_ & _ & _ & _ & G).
  split; [apply H; reflexivity | apply G; vm_compute; discriminate].
Defined.

(** X9: an interrupt taken on the way to a call (MovingToCallUp or
    MovingToCallDown) compares the stored call floor with the floor it
    sees: if they are equal it ends in AwaitingSelection with the motor
    held, otherwise it stays in its state with the motor commanded up
    (respectively down).  Neither a cabin selection nor a tower call in
    the same interrupt changes the state or the stored call. *)
Theorem X9_call_arrival (io : Ports) (m : Machine) :
  moving_to_call (state m) = true ->
  let m' := WDT_interval_handler io m in
  current_floor m' = floor_seen io m /\
  called_floor m' = called_floor m /\
  dest_direction m' = dest_direction m /\
  (called_floor m = floor_seen io m ->
   state m' = AwaitingSelection /\ motor_intent m' = Some Hold) /\
  (called_floor m <> floor_seen io m ->
   state m' = state m /\
   motor_intent m' = Some (match state m with
                           | MovingToCallUp => Up
                           | _ => Down
                           end)).
Proof.
  intros Hmv. cbn zeta.
  destruct (frozen_tick io m) as (Hs & Hc & Hk & Hr);
    try (intros E; rewrite E in Hmv; discriminate). cbn zeta in *.
  split; [exact Hc|]. split; [exact Hk|]. split; [exact Hr|].
  rewrite tick_intent, Hs. unfold next_state.
  destruct (state m); try discriminate Hmv;
    destruct (Z.eqb_spec (called_floor m) (floor_seen io m));
    split; intros; try contradiction; split; reflexivity.
Qed.

Lemma X9_call_arrival_witness :
  state (WDT_interval_handler io_floor4 m_going_up_to_call4) = AwaitingSelection /\
  state (WDT_interval_handler io_floor3 m_going_up_to_call4) = MovingToCallUp.
Proof.
  destruct (X9_call_arrival io_floor4 m_going_up_to_call4 eq_refl)
    as (_ & _ & _ & H & _).
  destruct (X9_call_arrival io_floor3 m_going_up_to_call4 eq_refl)
    as (_ & _ & _ & _ & G).
  split; [apply H; reflexivity | apply G; vm_compute; discriminate].
Defined.

(** X11: an interrupt taken in Idle that carries a press of a listed
    tower button, with the floor it sees one of 1..4, stores the
    button's floor and direction and acts on the call at once: it ends
    in AwaitingSelection with the motor held when the call is for the
    floor seen, in MovingToCallUp with the motor commanded up when the
    call is above, in MovingToCallDown with the motor commanded down
    when it is below.  A cabin selection in the same interrupt does not
    change this. *)
Theorem X11_call_starts_motor (io : Ports) (m : Machine) (addr floor dir : Z) :
  state m = Idle ->
  tower_event io = Some addr ->
  tower_button addr = Some (floor, dir) ->
  1 <= floor_seen io m <= 4 ->
  let m' := WDT_interval_handler io m in
  called_floor m' = floor /\
  dest_direction m' = dir /\
  (floor = floor_seen io m ->
   state m' = AwaitingSelection /\ motor_intent m' = Some Hold) /\
  (floor > floor_seen io m ->
   state m' = MovingToCallUp /\ motor_intent m' = Some Up) /\
  (floor < floor_seen io m ->
   state m' = MovingToCallDown /\ motor_intent m' = Some Down).
Proof.
  intros HI Ht Hb Hrange. cbn zeta.
  destruct (tick_frame io m) as (_ & Fk & _ & Fr).
  pose proof (tick_state io m) as Hs.
  rewrite poll_current_floor in Hs. fold (floor_seen io m) in Hs.
  rewrite tick_intent, Fk, Fr, Hs. clear Fk Fr Hs.
  rewrite poll_split.
  destruct (limit_poll_facts io m) as (Ls & Lc & _). cbn zeta in *.
  set (a := (if negb (Z.land (P2IN io) LIMIT_EN =? 0)
             then handle_limit_switch (get_limit_addr io) else skip) m) in *.
  set (q := (if negb (Z.land (P2IN io) ELEV_EN =? 0)
             then handle_elev_button (get_elev_addr io) else skip) a).
  assert (Hq : state q = Idle /\ current_floor q = floor_seen io m).
  { unfold q. destruct (negb (Z.land (P2IN io) ELEV_EN =? 0)).
    - rewrite elev_state, Ls, HI, (proj1 (proj2 (elev_frame _ _))).
      split; [reflexivity | exact Lc].
    - change (skip a) with a. rewrite Ls. split; [exact HI | exact Lc]. }
  destruct Hq as (Hq1 & Hq2).
  unfold tower_event in Ht.
  destruct (negb (Z.land (P1IN io) TOWER_EN =? 0)); [|discriminate].
  inversion Ht as [Ha]. rewrite Ha.
  destruct (tower_idle_pending addr floor dir q Hq1 Hb) as (Pk & Pr).
  rewrite Pk, Pr, (tower_idle_state addr floor dir q Hq1 Hb)
    by (rewrite Hq2; exact Hrange).
  rewrite Hq2. unfold call_state, next_state.
  split; [reflexivity|]. split; [reflexivity|].
  destruct (Z.eqb_spec floor (floor_seen io m)).
  - repeat split; intros; try lia; reflexivity.
  - destruct (Z.gtb_spec floor (floor_seen io m));
      destruct (Z.eqb_spec floor (floor_seen io m)); try contradiction;
      repeat split; intros; try lia; reflexivity.
Qed.

Lemma X11_call_starts_motor_witness :
  state (WDT_interval_handler io_floor1_call3 m_idle_floor1) = MovingToCallUp /\
  motor_intent (WDT_interval_handler io_floor1_call3 m_idle_floor1) = Some Up.
Proof.
  destruct (X11_call_starts_motor io_floor1_call3 m_idle_floor1 F3_UP 3 CH_u)
    as (_ & _ & _ & H & _).
  - reflexivity.
  - reflexivity.
  - reflexivity.
  - vm_compute. split; discriminate.
  - apply H. reflexivity.
Defined.

(** X12: in Idle, [handle_tower_button] acts on exactly the six button
    addresses 2..7: for these it leaves Idle, for every other address
    (0 and 1 among the values the encoder can deliver) it returns the
    machine unchanged. *)
Theorem X12_listed_addresses (addr : Z) (m : Machine) :
  state m = Idle ->
  (state (handle_tower_button addr m) <> Idle <-> 2 <= addr <= 7) /\
  (addr < 2 \/ 7 < addr -> handle_tower_button addr m = m).
Proof.
  intros HI.
  assert (Hb : tower_button addr = None <-> addr < 2 \/ 7 < addr).
  { unfold tower_button, F1_UP, F2_DN, F2_UP, F3_DN, F3_UP, F4_DN.
    repeat match goal with
           | |- context [addr =? ?c] => destruct (Z.eqb_spec addr c)
           end; split; intros H; try discriminate H; try reflexivity; lia. }
  destruct (tower_idle_cases addr m HI) as [(Hn & E)|(Hn & H)]; cbn zeta in *.
  - rewrite E. split; [|intros _; reflexivity].
    split; [intros F; contradiction|].
    intros R. apply Hb in Hn. lia.
  - split.
    + split.
      * intros _. destruct (Z.ltb_spec addr 2); [exfalso; apply Hn, Hb; lia|].
        destruct (Z.ltb_spec 7 addr); [exfalso; apply Hn, Hb; lia|]. lia.
      * intros _. destruct H as [(H & _)|(H & _)].
        -- rewrite H. discriminate.
        -- intros F. rewrite F in H. discriminate.
    + intros R. exfalso. apply Hn, Hb, R.
Qed.

Lemma X12_listed_addresses_witness :
  handle_tower_button 1 m_idle_floor1 = m_idle_floor1 /\
  state (handle_tower_button F4_DN m_idle_floor1) <> Idle.
Proof.
  destruct (X12_listed_addresses 1 m_idle_floor1 eq_refl) as (_ & H).
  destruct (X12_listed_addresses F4_DN m_idle_floor1 eq_refl) as (G & _).
  split; [apply H; lia | apply G; vm_compute; split; discriminate].
Defined.

(** X13: an interrupt taken in AwaitingSelection that carries a cabin
    selection of floor [g] stores [g] as the destination and acts on it
    at once: it ends in MovingToDestinationUp with the motor commanded
    up when the call direction is 'u' and [g] is above the floor seen,
    in MovingToDestinationDown with the motor commanded down when the
    direction is 'd' and [g] is below, and otherwise stays in
    AwaitingSelection with the motor held.  A tower call in the same
    interrupt is dropped. *)
Theorem X13_selection_starts_motor (io : Ports) (m : Machine) (g : Z) :
  state m = AwaitingSelection ->
  elev_event io = Some g ->
  let m' := WDT_interval_handler io m in
  destination m' = g /\
  called_floor m' = called_floor m /\
  dest_direction m' = dest_direction m /\
  (dest_direction m = CH_u /\ g > floor_seen io m ->
   state m' = MovingToDestinationUp /\ motor_intent m' = Some Up) /\
  (dest_direction m = CH_d /\ g < floor_seen io m ->
   state m' = MovingToDestinationDown /\ motor_intent m' = Some Down) /\
  (~ (dest_direction m = CH_u /\ g > floor_seen io m) ->
   ~ (dest_direction m = CH_d /\ g < floor_seen io m) ->
   state m' = AwaitingSelection /\ motor_intent m' = Some Hold).
Proof.
  intros HW Hg. cbn zeta.
  assert (HI : state m <> Idle) by (rewrite HW; discriminate).
  destruct (tick_frame io m) as (_ & Fk & Fd & Fr).
  destruct (poll_called_floor io m HI) as (Hk & Hr).
  pose proof (tick_state io m) as Hs.
  rewrite (poll_awaiting_state io m HW), poll_destination, poll_current_floor,
    Hg in Hs.
  fold (floor_seen io m) in Hs.
  rewrite tick_intent, Fk, Fd, Fr, Hk, Hr, poll_destination, Hg, Hs.
  clear Hs. unfold selection_state, next_state, CH_u, CH_d.
  split; [reflexivity|]. split; [reflexivity|]. split; [reflexivity|].
  destruct (Z.eqb_spec g (floor_seen io m));
    destruct (Z.eqb_spec (dest_direction m) 117);
    destruct (Z.eqb_spec (dest_direction m) 100);
    destruct (Z.gtb_spec g (floor_seen io m));
    destruct (Z.ltb_spec g (floor_seen io m));
    cbn [andb]; try lia;
    repeat match goal with
           | |- context [?a =? ?b] => destruct (Z.eqb_spec a b); try lia
           end;
    repeat split; intros; try reflexivity; try lia; try tauto;
    repeat match goal with
           | H : _ /\ _ |- _ => destruct H
           end; try lia; try tauto;
    exfalso; tauto.
Qed.

Lemma X13_selection_starts_motor_witness :
  state (WDT_interval_handler io_waiting_select4 m_waiting_floor3_up)
    = MovingToDestinationUp /\
  motor_intent (WDT_interval_handler io_waiting_select4 m_waiting_floor3_up)
    = Some Up.
Proof.
  destruct (X13_selection_starts_motor io_waiting_select4 m_waiting_floor3_up 4)
    as (_ & _ & _ & H & _).
  - reflexivity.
  - reflexivity.
  - apply H. split; [reflexivity | vm_compute; reflexivity].
Defined.

(** ** Runs that wait *)

Lemma waiting_tick (io : Ports) (m : Machine) :
  (state m = Idle /\ tower_event io = None) \/
  (state m = AwaitingSelection /\ elev_event io = None) ->
  state (WDT_interval_handler io m) = state m /\
  motor_intent (WDT_interval_handler io m) = Some Hold.
Proof.
  intros H.
  assert (Hs : state (WDT_interval_handler io m) = state m).
  { rewrite tick_state. destruct H as [(HI & Ht)|(HW & He)].
    - rewrite poll_split.
      unfold tower_event in Ht.
      destruct (negb (Z.land (P1IN io) TOWER_EN =? 0)); [discriminate|].
      unfold skip at 1.
      destruct (limit_poll_facts io m) as (Ls & _). cbn zeta in Ls.
      set (a := (if negb (Z.land (P2IN io) LIMIT_EN =? 0)
                 then handle_limit_switch (get_limit_addr io) else skip) m) in *.
      assert (Hq : state ((if negb (Z.land (P2IN io) ELEV_EN =? 0)
                           then handle_elev_button (get_elev_addr io) else skip) a)
                   = Idle).
      { destruct (negb (Z.land (P2IN io) ELEV_EN =? 0)).
        - rewrite elev_state, Ls, HI. reflexivity.
        - change (skip a) with a. rewrite Ls. exact HI. }
      rewrite Hq, HI. reflexivity.
    - rewrite (poll_awaiting_state io m HW), He, HW. reflexivity. }
  split; [exact Hs|]. rewrite tick_intent, Hs.
  destruct H as [(E & _)|(E & _)]; rewrite E; reflexivity.
Qed.

(** X15: Idle is left only by a tower call and AwaitingSelection only by
    a cabin selection.  Over any number of interrupts without a tower
    call, an idle machine stays idle, and over any number of interrupts
    without a cabin selection a waiting machine stays waiting, whatever
    the other inputs do (position readings, presses of the other
    buttons); the motor is held after each of these interrupts. *)
Theorem X15_waiting_states_persist (ios : list Ports) (m : Machine) :
  (state m = Idle /\ Forall (fun io => tower_event io = None) ios) \/
  (state m = AwaitingSelection /\ Forall (fun io => elev_event io = None) ios) ->
  state (run ios m) = state m /\
  Forall (fun m' => motor_intent m' = Some Hold) (run_trace ios m).
Proof.
  revert m. induction ios as [|io rest IH]; intros m H; cbn [run run_trace].
  - split; [reflexivity | constructor].
  - assert (H1 : (state m = Idle /\ tower_event io = None) \/
                 (state m = AwaitingSelection /\ elev_event io = None)).
    { destruct H as [(E & F)|(E & F)]; inversion F; subst; [left|right];
        split; assumption. }
    destruct (waiting_tick io m H1) as (Hs & Hi).
    destruct (IH (WDT_interval_handler io m)) as (I1 & I2).
    { rewrite Hs. destruct H as [(E & F)|(E & F)]; inversion F; subst;
        [left|right]; split; assumption. }
    split; [rewrite I1; exact Hs|]. constructor; assumption.
Qed.

Lemma X15_waiting_states_persist_witness :
  state (run [io_floor2; io_call3; io_floor3] m_waiting_floor3_up)
  = AwaitingSelection.
Proof.
  destruct (X15_waiting_states_persist [io_floor2; io_call3; io_floor3]
                                       m_waiting_floor3_up) as (H & _).
  - right. split; [reflexivity|]. repeat constructor.
  - exact H.
Defined.

(** X16: service does not start before the car is homed.  From
    Initializing with the stored floor different from 1, over any
    number of interrupts none of which reads floor 1, the machine stays
    in Initializing and the motor is commanded down after each of them,
    whatever buttons are pressed. *)
Theorem X16_no_service_before_homing (ios : list Ports) (m : Machine) :
  state m = Initializing ->
  current_floor m <> 1 ->
  Forall (fun io => limit_event io <> Some 1) ios ->
  state (run ios m) = Initializing /\
  Forall (fun m' => motor_intent m' = Some Down) (run_trace ios m).
Proof.
  revert m. induction ios as [|io rest IH]; intros m HS HC HF;
    cbn [run run_trace].
  - split; [exact HS | constructor].
  - inversion HF as [|x l Hio Hrest]; subst.
    assert (Hseen : floor_seen io m <> 1).
    { unfold floor_seen. destruct (limit_event io) as [f|]; [|exact HC].
      intros E. apply Hio. rewrite E. reflexivity. }
    destruct (frozen_tick io m) as (Hs & Hc & _);
      try (rewrite HS; discriminate). cbn zeta in *.
    rewrite HS in Hs. unfold next_state in Hs.
    apply Z.eqb_neq in Hseen. rewrite Hseen in Hs. apply Z.eqb_neq in Hseen.
    destruct (IH (WDT_interval_handler io m)) as (I1 & I2);
      [exact Hs | rewrite Hc; exact Hseen | exact Hrest |].
    split; [exact I1|]. constructor; [|exact I2].
    rewrite tick_intent, Hs. reflexivity.
Qed.

Lemma X16_no_service_before_homing_witness :
  state (run [io_none; io_call3; io_floor2] m_initializing) = Initializing.
Proof.
  destruct (X16_no_service_before_homing
              [io_none; io_call3; io_floor2] m_initializing) as (H & _).
  - reflexivity.
  - vm_compute. discriminate.
  - repeat constructor; vm_compute; discriminate.
  - exact H.
Defined.

(** ** Port initialisation *)

Lemma high_bit_of_byte (x n : Z) :
  0 <= x < 256 -> 8 <= n -> Z.testbit x n = false.
Proof.
  intros Hx Hn. rewrite <- (u8_small x Hx). apply u8_testbit_high, Hn.
Qed.

Lemma byte_ext (x b : Z) :
  0 <= x < 256 -> 0 <= b < 256 ->
  (forall n, 0 <= n < 8 -> Z.testbit x n = Z.testbit b n) ->
  x = b.
Proof.
  intros Hx Hb H. apply Z.bits_inj'. intros n Hn.
  destruct (Z.ltb_spec n 8).
  - apply H. lia.
  - rewrite !high_bit_of_byte by assumption. reflexivity.
Qed.

Lemma bis_range (reg mask : Z) : 0 <= bis reg mask < 256.
Proof. apply u8_range. Qed.

Lemma bic_range (reg mask : Z) : 0 <= bic reg mask < 256.
Proof. apply u8_range. Qed.

(** X14: whatever the configuration registers hold before, after the
    five port initialisations of [main] the direction register of port
    1 is 0x0F and that of port 2 is 0xC0: the decoder lines, the PWM
    line and the two motor direction lines are outputs, and every pin
    the interrupt reads (enable and address lines of the three
    encoders) is an input.  The PWM pin is given to the timer, the two
    direction pins are taken from the oscillator, the PWM period
    register is 999 and the compare register 500; nothing else of the
    machine is touched. *)
Theorem X14_port_initialisation (b : Board) :
  let b' := init_ports b in
  P1DIR b' = 15 /\
  P2DIR b' = 192 /\
  Z.land (P1DIR b') (Z.lor TOWER_EN TOWER_ADDR_MASK) = 0 /\
  Z.land (P2DIR b')
         (Z.lor (Z.lor LIMIT_EN LIMIT_ADDR_MASK) (Z.lor ELEV_EN ELEV_ADDR_MASK)) = 0 /\
  Z.land (P1DIR b') (Z.lor (Z.lor SEVENSEG_A0 SEVENSEG_A1) (Z.lor SEVENSEG_A2 PWM))
  = Z.lor (Z.lor SEVENSEG_A0 SEVENSEG_A1) (Z.lor SEVENSEG_A2 PWM) /\
  Z.land (P2DIR b') (Z.lor UPCTL DNCTL) = Z.lor UPCTL DNCTL /\
  Z.testbit (P1SEL b') 2 = true /\
  Z.testbit (P2SEL b') 6 = false /\
  Z.testbit (P2SEL b') 7 = false /\
  TA0CCR0 b' = 999 /\
  machine b' = set_TA0CCR1 500 (machine b).
Proof.
  cbn zeta.
  assert (H1 : P1DIR (init_ports b) = 15).
  { unfold init_ports, init_7segment, init_tower_buttons, init_elev_buttons,
      init_limit_switches, init_motor_control.
    cbn [P1DIR P2DIR P1SEL P2SEL TA0CCR0 machine set_P1DIR set_P2DIR
         set_P1SEL set_P2SEL set_TA0CCR0 set_machine].
    apply byte_ext; [apply bis_range | lia |].
    intros n Hn. byte_positions n Hn; mask_bits; reflexivity. }
  assert (H2 : P2DIR (init_ports b) = 192).
  { unfold init_ports, init_7segment, init_tower_buttons, init_elev_buttons,
      init_limit_switches, init_motor_control.
    cbn [P1DIR P2DIR P1SEL P2SEL TA0CCR0 machine set_P1DIR set_P2DIR
         set_P1SEL set_P2SEL set_TA0CCR0 set_machine].
    apply byte_ext; [apply bic_range | lia |].
    intros n Hn. byte_positions n Hn; mask_bits; reflexivity. }
  rewrite H1, H2.
  repeat split;
    unfold init_ports, init_7segment, init_tower_buttons, init_elev_buttons,
      init_limit_switches, init_motor_control;
    cbn [P1DIR P2DIR P1SEL P2SEL TA0CCR0 machine set_P1DIR set_P2DIR
         set_P1SEL set_P2SEL set_TA0CCR0 set_machine];
    mask_bits; reflexivity.
Qed.

(** ** Motor commands in sequence *)

(** X17: on the direction lines a motor command replaces the one before
    it without trace: for any two of [stop_motor], [go_up], [go_down]
    run one after the other, port 2 ends as if only the second had run.
    [stop_motor] leaves the PWM compare register as the last direction
    command set it. *)
Theorem X17_last_motor_command_wins (f g : Machine -> Machine) (m : Machine) :
  In f [stop_motor; go_up; go_down] ->
  In g [stop_motor; go_up; go_down] ->
  P2OUT (f (g m)) = P2OUT (f m) /\
  motor_intent (f (g m)) = motor_intent (f m) /\
  TA0CCR1 (stop_motor (g m)) = TA0CCR1 (g m).
Proof.
  intros Hf Hg.
  assert (E : P2OUT (f (g m)) = P2OUT (f m)).
  { cbn [In] in Hf, Hg.
    destruct Hf as [<-|[<-|[<-|[]]]]; destruct Hg as [<-|[<-|[<-|[]]]];
      repeat (rewrite P2OUT_stop_motor || rewrite P2OUT_go_up
              || rewrite P2OUT_go_down);
      (apply byte_ext; [apply u8_range | apply u8_range |]);
      intros n Hn; byte_positions n Hn; mask_bits; cbn [andb orb negb];
      rewrite ?orb_true_r, ?orb_false_r, ?andb_true_r, ?andb_false_r;
      reflexivity. }
  split; [exact E|]. split; [unfold motor_intent; rewrite E; reflexivity|].
  reflexivity.
Qed.

Lemma X17_last_motor_command_wins_witness :
  P2OUT (go_up (stop_motor m_idle_floor1)) = P2OUT (go_up m_idle_floor1).
Proof.
  destruct (X17_last_motor_command_wins go_up stop_motor m_idle_floor1) as (H & _).
  - right. left. reflexivity.
  - left. reflexivity.
  - exact H.
Defined.
